(** * cdc-file-transfer: asset_stream_manager/local_assets_stream_manager_service_impl.cc

    A shallow embedding of the session bootstrap path of the asset stream
    manager service: [ParseInstanceName], [ParseValue], [InitSsh] and
    [StartSession], with the collaborators of the service (process factory,
    session manager, metrics service) as explicit inputs and their calls
    recorded in a trace. *)

From Stdlib Require Import Bool Arith ZArith NArith List Lia.
From Stdlib Require Import Strings.Ascii Strings.String.
From Stdlib Require Import Numbers.DecimalString Numbers.DecimalN Numbers.DecimalFacts.
From Equations Require Import Equations.
Import ListNotations.

Local Open Scope list_scope.
Local Open Scope string_scope.

(** ** Characters and strings as the code uses them *)

Module Str.

(** [std::string] is a byte string: [string] of the standard library. *)

Definition LF : ascii := "010"%char.
Definition NUL : ascii := "000"%char.
Definition DQUOTE : ascii := "034"%char.
Definition BACKSLASH : ascii := "092"%char.

(** [isspace] of <cctype> in the "C" locale: space, \t, \n, \v, \f, \r;
    no byte above 127 is white space there. *)
Definition isspace (c : ascii) : bool :=
  let n := nat_of_ascii c in
  (n =? 32)%nat || ((9 <=? n)%nat && (n <=? 13)%nat).

(** [isdigit]: '0' .. '9'. *)
Definition isdigit (c : ascii) : bool :=
  let n := nat_of_ascii c in
  (48 <=? n)%nat && (n <=? 57)%nat.

(** [s.empty()]. *)
Definition empty (s : string) : bool :=
  match s with
  | EmptyString => true
  | String _ _ => false
  end.

(** [s.size()]. *)
Definition size (s : string) : nat := String.length s.

(** [s.find(pat)]: position of the first occurrence, [None] for [npos]. *)
Definition find (s pat : string) : option nat := String.index 0 pat s.

(** [s.substr(pos, len)] for [pos <= s.size()]. *)
Definition substr (s : string) (pos len : nat) : string :=
  String.substring pos len s.

(** [isspace(s[i])]; the code only reads positions below [s.size()]. *)
Definition isspace_at (s : string) (i : nat) : bool :=
  match String.get i s with
  | Some c => isspace c
  | None => false
  end.

(** [absl::StrSplit(s, d)] with the default [AllowEmpty] predicate: the
    pieces between delimiters, empty pieces kept; the empty string gives
    one empty piece. *)
Fixpoint StrSplit (s : string) (d : ascii) : list string :=
  match s with
  | EmptyString => [EmptyString]
  | String c s' =>
      if Ascii.eqb c d then EmptyString :: StrSplit s' d
      else match StrSplit s' d with
           | [] => [String c EmptyString]
           | p :: ps => String c p :: ps
           end
  end.

(** [parts[i]] on a [std::vector<std::string>]; the code checks the size
    before it indexes. *)
Definition at_ (parts : list string) (i : nat) : string :=
  nth i parts EmptyString.

End Str.

(** The string of one line feed. *)
Definition LF_string : string := String Str.LF "".

(** ** ParseInstanceName *)

(** The three output parameters [instance_id], [project_id],
    [organization_id] of [ParseInstanceName], as the caller's strings. *)
Record InstanceOut := mkInstanceOut {
  instance_id : string;
  project_id : string;
  organization_id : string
}.

Definition ParseInstanceName (instance_name : string) (out : InstanceOut)
  : bool * InstanceOut :=
  let parts := Str.StrSplit instance_name "/"%char in
  if negb (List.length parts =? 10)%nat then (false, out)
  else if negb (Str.at_ parts 0 =? "organizations") || Str.empty (Str.at_ parts 1)
  then (false, out)
  else if negb (Str.at_ parts 2 =? "projects") || Str.empty (Str.at_ parts 3)
  then (false, out)
  else if negb (Str.at_ parts 4 =? "pools") || Str.empty (Str.at_ parts 5)
  then (false, out)
  else if negb (Str.at_ parts 6 =? "gamelets") || Str.empty (Str.at_ parts 7)
          || Str.empty (Str.at_ parts 8) || Str.empty (Str.at_ parts 9)
  then (false, out)
  else
    let organization_id' := Str.at_ parts 1 in
    let project_id' := Str.at_ parts 3 in
    (* absl::StrFormat("%s/%s/%s", parts[7], parts[8], parts[9]) *)
    let instance_id' :=
      Str.at_ parts 7 ++ "/" ++ Str.at_ parts 8 ++ "/" ++ Str.at_ parts 9 in
    (true, mkInstanceOut instance_id' project_id' organization_id').

(** ** ParseValue *)

(** [std::getline(stream, line)] on a [std::istringstream] whose unread
    input is [stream]: fails at end of input, otherwise extracts up to and
    without the next line feed and consumes the line feed. *)
Fixpoint read_until_LF (stream : string) : string * string :=
  match stream with
  | EmptyString => (EmptyString, EmptyString)
  | String c rest =>
      if Ascii.eqb c Str.LF then (EmptyString, rest)
      else let '(line, rest') := read_until_LF rest in (String c line, rest')
  end.

Definition getline (stream : string) : option (string * string) :=
  match stream with
  | EmptyString => None
  | String _ _ => Some (read_until_LF stream)
  end.

Lemma read_until_LF_length stream :
  (String.length (snd (read_until_LF stream)) <= String.length stream)%nat.
Proof.
  induction stream as [|c rest IH]; simpl; [lia|].
  destruct (Ascii.eqb c Str.LF); simpl; [lia|].
  destruct (read_until_LF rest); simpl in *; lia.
Qed.

Lemma getline_shorter stream line rest :
  getline stream = Some (line, rest) ->
  (String.length rest < String.length stream)%nat.
Proof.
  destruct stream as [|c s]; simpl; [discriminate|].
  pose proof (read_until_LF_length s) as Hs.
  destruct (Ascii.eqb c Str.LF).
  - intros [= _ <-]. lia.
  - destruct (read_until_LF s); simpl in *. intros [= _ <-]. lia.
Qed.

(** [while (start_pos < line.size() && isspace(line[start_pos])) start_pos++;] *)
Equations? skip_leading (line : string) (start_pos : nat) : nat
  by wf (Str.size line - start_pos)%nat lt :=
  skip_leading line start_pos with lt_dec start_pos (Str.size line) => {
    | left _ with Str.isspace_at line start_pos => {
        | true := skip_leading line (S start_pos);
        | false := start_pos };
    | right _ := start_pos }.
Proof. lia. Qed.

(** [while (end_pos > start_pos && isspace(line[end_pos - 1])) end_pos--;] *)
Fixpoint skip_trailing (line : string) (start_pos end_pos : nat) : nat :=
  match end_pos with
  | O => end_pos
  | S e =>
      if (start_pos <? end_pos)%nat && Str.isspace_at line e
      then skip_trailing line start_pos e
      else end_pos
  end.

(** The body of the [if (line.find(key + ":") == 0)] branch. *)
Definition trimmed_value (line key : string) : string :=
  let start_pos := skip_leading line (Str.size key + 1) in
  let end_pos := skip_trailing line start_pos (Str.size line) in
  Str.substr line start_pos (end_pos - start_pos).

Definition getline_inspect (stream : string)
  : { r : option (string * string) | getline stream = r } :=
  exist _ (getline stream) eq_refl.

(** The [while (std::getline(stream, line))] loop; [value] is the caller's
    string behind the output pointer. *)
Equations? ParseValue_loop (stream key value : string) : bool * string
  by wf (String.length stream) lt :=
  ParseValue_loop stream key value with getline_inspect stream => {
    | exist _ None _ := (false, value);
    | exist _ (Some (line, rest)) _ =>
        if match Str.find line (key ++ ":") with
           | Some O => true
           | _ => false
           end
        then (true, trimmed_value line key)
        else ParseValue_loop rest key value }.
Proof. eapply getline_shorter; eassumption. Qed.

Definition ParseValue (data key value : string) : bool * string :=
  ParseValue_loop data key value.


(** ** atoi *)

Module Libc.

Definition INT_MIN : Z := - 2 ^ 31.
Definition INT_MAX : Z := 2 ^ 31 - 1.
Definition UINT_MAX : Z := 2 ^ 32 - 1.

(** [s.c_str()] as a C string: the bytes before the first NUL. *)
Fixpoint c_str (s : string) : string :=
  match s with
  | EmptyString => EmptyString
  | String c s' =>
      if Ascii.eqb c Str.NUL then EmptyString else String c (c_str s')
  end.

Fixpoint skip_space (s : string) : string :=
  match s with
  | EmptyString => EmptyString
  | String c s' => if Str.isspace c then skip_space s' else s
  end.

Definition digit_value (c : ascii) : Z := Z.of_nat (nat_of_ascii c) - 48.

(** The value of the longest prefix of decimal digits, from [acc]. *)
Fixpoint digits_value (acc : Z) (s : string) : Z :=
  match s with
  | EmptyString => acc
  | String c s' =>
      if Str.isdigit c then digits_value (10 * acc + digit_value c) s'
      else acc
  end.

(** The integer [atoi] reads: leading white space skipped, an optional
    sign, then the longest run of decimal digits; 0 when there is none. *)
Definition parsed_integer (nptr : string) : Z :=
  match skip_space nptr with
  | String c s' =>
      if Ascii.eqb c "-"%char then - digits_value 0 s'
      else if Ascii.eqb c "+"%char then digits_value 0 s'
      else digits_value 0 (String c s')
  | EmptyString => 0
  end.

(** [atoi]: the integer read when it fits an [int].  The C standard leaves
    the result undefined otherwise; what the C library returns then is the
    parameter [atoi_out_of_range]. *)
Definition atoi (atoi_out_of_range : Z -> Z) (nptr : string) : Z :=
  let v := parsed_integer nptr in
  if (INT_MIN <=? v)%Z && (v <=? INT_MAX)%Z then v
  else atoi_out_of_range v.

(** Conversion of an [int] to [unsigned int] (the usual arithmetic
    conversions of a comparison between the two). *)
Definition to_unsigned (x : Z) : Z := (x mod 2 ^ 32)%Z.

(** [static_cast<uint16_t>(x)]. *)
Definition to_uint16 (x : Z) : Z := (x mod 2 ^ 16)%Z.

End Libc.

(** ** absl::Status *)

Inductive StatusCode :=
| kOk | kCancelled | kUnknown | kInvalidArgument | kDeadlineExceeded
| kNotFound | kAlreadyExists | kPermissionDenied | kResourceExhausted
| kFailedPrecondition | kAborted | kOutOfRange | kUnimplemented
| kInternal | kUnavailable | kDataLoss | kUnauthenticated.

Record Status := mkStatus {
  code : StatusCode;
  message : string
}.

Definition OkStatus : Status := mkStatus kOk "".

Definition InvalidArgumentError (msg : string) : Status :=
  mkStatus kInvalidArgument msg.

Definition ok (s : Status) : bool :=
  match code s with
  | kOk => true
  | _ => false
  end.

(** [absl::StrFormat("%u", n)] on a [uint32_t]. *)
Definition StrFormat_u (n : N) : string :=
  NilEmpty.string_of_uint (N.to_uint n).

(** [std::quoted(s)] written to a stream: [s] between double quotes, every
    double quote and backslash of [s] escaped with a backslash. *)
Fixpoint quoted_body (s : string) : string :=
  match s with
  | EmptyString => EmptyString
  | String c s' =>
      if Ascii.eqb c Str.DQUOTE || Ascii.eqb c Str.BACKSLASH
      then String Str.BACKSLASH (String c (quoted_body s'))
      else String c (quoted_body s')
  end.

Definition Quoted (s : string) : string :=
  String Str.DQUOTE (quoted_body s) ++ String Str.DQUOTE "".

(** ** Collaborators and the trace of their calls *)

Inductive RequestOrigin := kUnknownOrigin | kCli | kPartnerPortal.

(** [StartSessionRequest::Origin]; a protobuf enum can carry a number that
    is none of the declared values. *)
Inductive StartSessionRequestOrigin :=
| ORIGIN_UNKNOWN | ORIGIN_CLI | ORIGIN_PARTNER_PORTAL
| ORIGIN_unrecognized (n : Z).

Definition ConvertOrigin (origin : StartSessionRequestOrigin) : RequestOrigin :=
  match origin with
  | ORIGIN_UNKNOWN => kUnknownOrigin
  | ORIGIN_CLI => kCli
  | ORIGIN_PARTNER_PORTAL => kPartnerPortal
  | _ => kUnknownOrigin
  end.

Inductive EventType := kSessionStart | kSessionStop.

Record StartSessionRequest := mkRequest {
  gamelet_name : string;
  workstation_directory : string;
  origin : StartSessionRequestOrigin
}.

Record ProcessStartInfo := mkStartInfo {
  command : string;
  name : string;
  forward_output_to_log : bool
}.

(** What a [Process] made by the factory does when it is driven: the status
    of [Start()], the chunks [RunUntilExit()] hands to [stdout_handler]
    before it returns, its status, and [ExitCode()] (a [uint32_t]). *)
Record Process := mkProcess {
  Start : Status;
  stdout_chunks : list string;
  RunUntilExit : Status;
  ExitCode : N
}.

Definition ProcessFactory := ProcessStartInfo -> Process.

(** A [MultiSession] handle, by what the service asks of it. *)
Record MultiSession := mkMultiSession {
  GetSessionCount : Z;
  HasSessionForInstance : string -> bool
}.

(** ** The specification's words, for comparison with the code *)

Module Spec.

(** The lines of a text: the pieces between line feeds; a line feed at the
    very end does not open another line, and the empty text has none. *)
Fixpoint lines (text : string) : list string :=
  match text with
  | EmptyString => []
  | String c text' =>
      if Ascii.eqb c Str.LF then EmptyString :: lines text'
      else match lines text' with
           | [] => [String c EmptyString]
           | l :: ls => String c l :: ls
           end
  end.

(** [s] without its first [n] characters. *)
Fixpoint drop (n : nat) (s : string) : string :=
  match n, s with
  | O, _ => s
  | S n', String _ s' => drop n' s'
  | S _, EmptyString => EmptyString
  end.

Fixpoint strip_leading (s : string) : string :=
  match s with
  | EmptyString => EmptyString
  | String c s' => if Str.isspace c then strip_leading s' else s
  end.

Fixpoint strip_trailing (s : string) : string :=
  match s with
  | EmptyString => EmptyString
  | String c s' =>
      match strip_trailing s' with
      | EmptyString => if Str.isspace c then EmptyString else String c EmptyString
      | r => String c r
      end
  end.

(** Leading and trailing white space stripped. *)
Definition strip (s : string) : string := strip_trailing (strip_leading s).

(** [s] starts with [p]. *)
Definition starts_with (p s : string) : Prop := exists r, s = p ++ r.

(** A line matches when it starts with [key ++ ":"]. *)
Definition matches (key line : string) : bool := String.prefix (key ++ ":") line.

(** The value of the first matching line; [None] for not-found. *)
Definition extract (text key : string) : option string :=
  match List.find (matches key) (lines text) with
  | Some line => Some (strip (drop (String.length key + 1) line))
  | None => None
  end.

(** A name of exactly ten segments that follows the template, and the
    scope it denotes. *)
Definition scope_of (segments : list string) : option InstanceOut :=
  match segments with
  | [s0; s1; s2; s3; s4; s5; s6; s7; s8; s9] =>
      if (s0 =? "organizations") && (s2 =? "projects") && (s4 =? "pools")
         && (s6 =? "gamelets")
         && negb (Str.empty s1) && negb (Str.empty s3) && negb (Str.empty s5)
         && negb (Str.empty s7) && negb (Str.empty s8) && negb (Str.empty s9)
      then Some (mkInstanceOut (s7 ++ "/" ++ s8 ++ "/" ++ s9) s3 s1)
      else None
  | _ => None
  end.

Definition parse (name : string) : option InstanceOut :=
  scope_of (Str.StrSplit name "/"%char).

(** [d] occurs in [s]. *)
Fixpoint contains (d : ascii) (s : string) : bool :=
  match s with
  | EmptyString => false
  | String c s' => Ascii.eqb c d || contains d s'
  end.

(** The pieces with [d] between them. *)
Fixpoint join (d : ascii) (pieces : list string) : string :=
  match pieces with
  | [] => EmptyString
  | [p] => p
  | p :: ps => p ++ String d (join d ps)
  end.

(** The lines, each followed by a line feed. *)
Fixpoint unlines (ls : list string) : string :=
  match ls with
  | [] => EmptyString
  | l :: ls' => l ++ String Str.LF (unlines ls')
  end.

(** Every character of [s] is white space. *)
Fixpoint all_space (s : string) : bool :=
  match s with
  | EmptyString => true
  | String c s' => Str.isspace c && all_space s'
  end.

(** No decimal digit occurs in [s]. *)
Fixpoint non_numeric (s : string) : bool :=
  match s with
  | EmptyString => true
  | String c s' => negb (Str.isdigit c) && non_numeric s'
  end.

(** Every character of [s] is a decimal digit. *)
Fixpoint all_digits (s : string) : bool :=
  match s with
  | EmptyString => true
  | String c s' => Str.isdigit c && all_digits s'
  end.

(** [s] is empty or starts with a character that is no digit. *)
Definition no_leading_digit (s : string) : bool :=
  match s with
  | EmptyString => true
  | String c _ => negb (Str.isdigit c)
  end.

(** The number a string of decimal digits denotes, digit by position. *)
Fixpoint decimal (digits : string) : Z :=
  match digits with
  | EmptyString => 0%Z
  | String c s =>
      ((Z.of_nat (nat_of_ascii c) - 48) * 10 ^ Z.of_nat (String.length s)
       + decimal s)%Z
  end.

End Spec.

(** ** Example runs *)

Module Examples.

(** A process that starts, prints [output] in one chunk and exits with
    [exit_code]; a factory that makes it for every command. *)
Definition printing_process (output : string) (exit_code : N) : Process :=
  mkProcess OkStatus [output] OkStatus exit_code.

Definition factory_of (process : Process) : ProcessFactory :=
  fun _ => process.

Definition output_with_port (port_text : string) : string :=
  "Host: 1.2.3.4" ++ LF_string ++ "Port: " ++ port_text ++ LF_string.

Definition good_name : string :=
  "organizations/o1/projects/p1/pools/pool1/gamelets/edge/e-1/abc123".

(** Nine segments. *)
Definition short_name : string :=
  "organizations/o1/projects/p1/pools/pool1/gamelets/edge/e-1".

(** One choice for the declarations the service takes from other
    headers: [MakeStatus] as an internal error with the message,
    [WrapStatus] keeping the code and prefixing the message, [grpc::Status]
    as the status itself, [metrics::SessionStartStatus] as a number. *)
Definition MakeStatus (msg : string) : Status := mkStatus kInternal msg.

Definition WrapStatus (inner : Status) (msg : string) : Status :=
  mkStatus (code inner) (msg ++ ": " ++ message inner).

Definition ToGrpcStatus (s : Status) : Status := s.

Definition ggp_path : string := "ggp".

Definition atoi_out_of_range (v : Z) : Z := 0%Z.

(** A handle with two sessions, one of them for [tracked]. *)
Definition handle_tracking (tracked : string) : MultiSession :=
  mkMultiSession 2 (String.eqb tracked).

(** A session manager whose [StartSession] returns [status], stores [ms]
    in the handle slot and leaves the status slot alone. *)
Definition registry_returning {S : Type} (status : Status)
    (ms : option MultiSession)
  : string -> string -> string -> string -> Z -> string ->
    option MultiSession -> S -> Status * option MultiSession * S :=
  fun _ _ _ _ _ _ _ slot => (status, ms, slot).

Definition request_for (name : string) : StartSessionRequest :=
  mkRequest name "C:\assets" ORIGIN_CLI.

End Examples.

(** ** The service *)

Section Service.

(** Declarations the service uses from headers outside this file. *)

(** [metrics::SessionStartStatus] and its [kOk]. *)
Variable SessionStartStatus : Type.
Variable SessionStartStatus_kOk : SessionStartStatus.

(** [grpc::Status] and [ToGrpcStatus] of common/grpc_status.h. *)
Variable GrpcStatus : Type.
Variable ToGrpcStatus : Status -> GrpcStatus.

(** [MakeStatus] and [WrapStatus] of common/status.h, applied to the
    formatted message. *)
Variable MakeStatus : string -> Status.
Variable WrapStatus : Status -> string -> Status.

(** [path::Join(sdk_util.GetDevBinPath(), "ggp")]. *)
Variable ggp_path : string.

Variable atoi_out_of_range : Z -> Z.

(** The fields of [metrics::DeveloperLogEvent] that [StartSession]
    touches; [concurrent_session_count] is [None] until it is assigned. *)
Record DeveloperLogEvent := mkEvent {
  evt_project_id : string;
  evt_organization_id : string;
  evt_absl_status : StatusCode;
  evt_status : SessionStartStatus;
  evt_origin : RequestOrigin;
  evt_concurrent_session_count : option Z
}.

(** [session_manager_->StartSession(...)]: from the arguments and the
    contents of the two output slots [&ms] and [&status], the returned
    status and the new contents of the slots. *)
Definition SessionManager : Type :=
  string -> string -> string -> string -> Z -> string ->
  option MultiSession -> SessionStartStatus ->
  Status * option MultiSession * SessionStartStatus.

(** Calls the service makes on its collaborators. *)
Inductive Call :=
| Call_ProcessCreate (start_info : ProcessStartInfo)
| Call_ProcessStart
| Call_ProcessRunUntilExit
| Call_ProcessExitCode
| Call_SessionManagerStartSession
    (instance_id project_id organization_id instance_ip : string)
    (instance_port : Z) (workstation_directory : string)
| Call_GetSessionCount
| Call_HasSessionForInstance (instance_id : string)
| Call_RecordSessionEvent
    (evt : DeveloperLogEvent) (type : EventType) (instance_id : string)
| Call_RecordMultiSessionEvent (evt : DeveloperLogEvent) (type : EventType)
| Call_RecordEvent (evt : DeveloperLogEvent) (type : EventType).

(** A computation with its calls, in order. *)
Definition M (A : Type) : Type := A * list Call.

Definition ret {A} (a : A) : M A := (a, []).

Definition bind {A B} (m : M A) (k : A -> M B) : M B :=
  let '(a, t1) := m in
  let '(b, t2) := k a in
  (b, (t1 ++ t2)%list).

Definition call {A} (c : Call) (result : A) : M A := (result, [c]).

Notation "x <- m ;; k" := (bind m (fun x => k))
  (at level 61, m at next level, right associativity).
Notation "' p <- m ;; k" := (bind m (fun x => let p := x in k))
  (at level 61, p pattern, m at next level, right associativity).

(** The [ProcessStartInfo] that [InitSsh] fills in; its [stdout_handler]
    appends to [output] and is part of [InitSsh] below. *)
Definition ssh_init_start_info
    (instance_id project_id organization_id : string) : ProcessStartInfo :=
  let command := ggp_path ++ " ssh init" in
  let command := command ++ " --instance " ++ Quoted instance_id in
  let command :=
    if negb (Str.empty project_id)
    then command ++ " --project " ++ Quoted project_id
    else command in
  let command :=
    if negb (Str.empty organization_id)
    then command ++ " --organization " ++ Quoted organization_id
    else command in
  mkStartInfo command "ggp ssh init" true.

(** What [output] holds once [RunUntilExit] has returned: the chunks the
    handler appended, in order.  The handler runs on a thread of the
    process; the code reads [output] only after [RunUntilExit]. *)
Definition captured_output (process : Process) : string :=
  fold_left String.append (stdout_chunks process) "".

(** [InitSsh]; [instance_ip] and [instance_port] are what the caller's
    output variables hold at the call, the result carries what they hold
    at the return. *)
Definition InitSsh (process_factory : ProcessFactory)
    (instance_id project_id organization_id : string)
    (instance_ip : string) (instance_port : Z)
  : M (Status * string * Z) :=
  let instance_ip := "" in
  let instance_port := 0%Z in
  let start_info := ssh_init_start_info instance_id project_id organization_id in
  let output := "" in
  process <- call (Call_ProcessCreate start_info) (process_factory start_info) ;;
  status <- call Call_ProcessStart (Start process) ;;
  if negb (ok status)
  then ret (WrapStatus status "Failed to start ggp process",
            instance_ip, instance_port)
  else
  (* stdout_handler: output.append(data, data_size) for every chunk *)
  '(status, output) <-
    call Call_ProcessRunUntilExit
      (RunUntilExit process, output ++ captured_output process) ;;
  if negb (ok status)
  then ret (WrapStatus status "Failed to run ggp process",
            instance_ip, instance_port)
  else
  exit_code <- call Call_ProcessExitCode (ExitCode process) ;;
  if negb (exit_code =? 0)%N
  then ret (MakeStatus ("ggp process exited with code "
                        ++ StrFormat_u exit_code),
            instance_ip, instance_port)
  else
  let '(found, instance_ip) := ParseValue output "Host" instance_ip in
  if negb found
  then ret (MakeStatus ("Failed to parse host from ggp ssh init response"
                        ++ LF_string ++ output),
            instance_ip, instance_port)
  else
  let port_string := "" in
  let '(result, port_string) := ParseValue output "Port" port_string in
  let int_port := Libc.atoi atoi_out_of_range (Libc.c_str port_string) in
  if negb result || (int_port =? 0)%Z || (int_port <=? 0)%Z
     || (Libc.to_unsigned int_port >? Libc.UINT_MAX)%Z
  then ret (MakeStatus ("Failed to parse ssh port from ggp ssh init response"
                        ++ LF_string ++ output),
            instance_ip, instance_port)
  else
  let instance_port := Libc.to_uint16 int_port in
  ret (OkStatus, instance_ip, instance_port).

(** The local variables of [StartSession] when it returns. *)
Record Locals := mkLocals {
  l_status : Status;
  l_ms : option MultiSession;
  l_ids : InstanceOut;
  l_instance_ip : string;
  l_instance_port : Z;
  l_evt : DeveloperLogEvent
}.

Definition set_ids (evt : DeveloperLogEvent) (project_id organization_id : string) :=
  mkEvent project_id organization_id (evt_absl_status evt) (evt_status evt)
          (evt_origin evt) (evt_concurrent_session_count evt).

Definition set_status (evt : DeveloperLogEvent) (s : SessionStartStatus) :=
  mkEvent (evt_project_id evt) (evt_organization_id evt) (evt_absl_status evt)
          s (evt_origin evt) (evt_concurrent_session_count evt).

Definition set_absl_status (evt : DeveloperLogEvent) (c : StatusCode) :=
  mkEvent (evt_project_id evt) (evt_organization_id evt) c (evt_status evt)
          (evt_origin evt) (evt_concurrent_session_count evt).

Definition set_concurrent_session_count (evt : DeveloperLogEvent) (n : Z) :=
  mkEvent (evt_project_id evt) (evt_organization_id evt) (evt_absl_status evt)
          (evt_status evt) (evt_origin evt) (Some n).

(** Lines 119-140 of [StartSession]: parse, resolve, registry call, each
    only when the one before succeeded.  The result holds the local
    variables after the [if]/[else]. *)
Definition StartSession_attempt (session_manager : SessionManager)
    (process_factory : ProcessFactory) (request : StartSessionRequest)
  : M Locals :=
  let evt :=
    mkEvent "" "" kOk SessionStartStatus_kOk
            (ConvertOrigin (origin request)) None in
  let status := OkStatus in
  let ms : option MultiSession := None in
  let ids := mkInstanceOut "" "" "" in
  let instance_ip := "" in
  let instance_port := 0%Z in
  let '(parsed, ids) := ParseInstanceName (gamelet_name request) ids in
  if negb parsed
  then
    ret (mkLocals
           (InvalidArgumentError
              ("Failed to parse instance name '" ++ gamelet_name request
               ++ "'"))
           ms ids instance_ip instance_port evt)
  else
    let evt := set_ids evt (project_id ids) (organization_id ids) in
    '(status, instance_ip, instance_port) <-
      InitSsh process_factory (instance_id ids) (project_id ids)
              (organization_id ids) instance_ip instance_port ;;
    if ok status
    then
      '(status, ms, start_status) <-
        call (Call_SessionManagerStartSession
                (instance_id ids) (project_id ids) (organization_id ids)
                instance_ip instance_port (workstation_directory request))
             (session_manager
                (instance_id ids) (project_id ids) (organization_id ids)
                instance_ip instance_port (workstation_directory request)
                ms (evt_status evt)) ;;
      ret (mkLocals status ms ids instance_ip instance_port
                    (set_status evt start_status))
    else
      ret (mkLocals status ms ids instance_ip instance_port evt).

(** Lines 142-156 of [StartSession]: the status code is written into the
    event and the event is handed to a sink.  The result is the event as
    handed over. *)
Definition StartSession_record (l : Locals) : M DeveloperLogEvent :=
  let evt := set_absl_status (l_evt l) (code (l_status l)) in
  match l_ms l with
  | Some ms =>
      count <- call Call_GetSessionCount (GetSessionCount ms) ;;
      let evt := set_concurrent_session_count evt count in
      has <-
        (if negb (Str.empty (instance_id (l_ids l)))
         then call (Call_HasSessionForInstance (instance_id (l_ids l)))
                   (HasSessionForInstance ms (instance_id (l_ids l)))
         else ret false) ;;
      if has
      then call (Call_RecordSessionEvent evt kSessionStart
                                         (instance_id (l_ids l))) evt
      else call (Call_RecordMultiSessionEvent evt kSessionStart) evt
  | None => call (Call_RecordEvent evt kSessionStart) evt
  end.

(** [StartSession] up to its [return]: the final local variables and the
    calls made.  The [LOG_INFO] and [LOG_ERROR] lines are left out. *)
Definition StartSession_run (session_manager : SessionManager)
    (process_factory : ProcessFactory) (request : StartSessionRequest)
  : M Locals :=
  l <- StartSession_attempt session_manager process_factory request ;;
  evt <- StartSession_record l ;;
  ret (mkLocals (l_status l) (l_ms l) (l_ids l) (l_instance_ip l)
                (l_instance_port l) evt).

Definition StartSession (session_manager : SessionManager)
    (process_factory : ProcessFactory) (request : StartSessionRequest)
  : M GrpcStatus :=
  l <- StartSession_run session_manager process_factory request ;;
  ret (ToGrpcStatus (l_status l)).

(** *** Reading a trace *)

(** The process [InitSsh] drives for the given ids. *)
Definition ssh_process (process_factory : ProcessFactory)
    (instance_id project_id organization_id : string) : Process :=
  process_factory (ssh_init_start_info instance_id project_id organization_id).

Definition InitSsh_status pf i p o ip0 port0 : Status :=
  fst (fst (fst (InitSsh pf i p o ip0 port0))).

Definition InitSsh_instance_ip pf i p o ip0 port0 : string :=
  snd (fst (fst (InitSsh pf i p o ip0 port0))).

Definition InitSsh_instance_port pf i p o ip0 port0 : Z :=
  snd (fst (InitSsh pf i p o ip0 port0)).

(** The three telemetry sinks. *)
Definition is_sink (c : Call) : bool :=
  match c with
  | Call_RecordSessionEvent _ _ _ => true
  | Call_RecordMultiSessionEvent _ _ => true
  | Call_RecordEvent _ _ => true
  | _ => false
  end.

(** Calls on the external process. *)
Definition is_process (c : Call) : bool :=
  match c with
  | Call_ProcessCreate _ => true
  | Call_ProcessStart => true
  | Call_ProcessRunUntilExit => true
  | Call_ProcessExitCode => true
  | _ => false
  end.

(** The start operation of the session registry. *)
Definition is_registry_start (c : Call) : bool :=
  match c with
  | Call_SessionManagerStartSession _ _ _ _ _ _ => true
  | _ => false
  end.

(** The events handed to a sink, in order. *)
Definition dispatched_events (trace : list Call) : list DeveloperLogEvent :=
  flat_map (fun c => match c with
                     | Call_RecordSessionEvent evt _ _ => [evt]
                     | Call_RecordMultiSessionEvent evt _ => [evt]
                     | Call_RecordEvent evt _ => [evt]
                     | _ => []
                     end) trace.

(** The sink the specification's three-way rule picks for a handle and
    an instance id. *)
Definition routed_sink (ms : option MultiSession) (instance_id : string)
    (evt : DeveloperLogEvent) : Call :=
  match ms with
  | None => Call_RecordEvent evt kSessionStart
  | Some handle =>
      if HasSessionForInstance handle instance_id
      then Call_RecordSessionEvent evt kSessionStart instance_id
      else Call_RecordMultiSessionEvent evt kSessionStart
  end.

(** *** More ways to read a trace *)

(** The calls [InitSsh] makes on a process that starts and runs. *)
Definition process_calls (start_info : ProcessStartInfo) : list Call :=
  [Call_ProcessCreate start_info; Call_ProcessStart;
   Call_ProcessRunUntilExit; Call_ProcessExitCode].

(** How many of them are reached: [Start] ends the sequence when it fails,
    [RunUntilExit] when it fails. *)
Definition calls_reached (process : Process) : nat :=
  if negb (ok (Start process)) then 2
  else if negb (ok (RunUntilExit process)) then 3
  else 4.

(** What [session_manager_->StartSession] is handed by [StartSession] for
    the parsed ids, and what it answers. *)
Definition registry_answer (session_manager : SessionManager)
    (process_factory : ProcessFactory) (request : StartSessionRequest)
    (ids : InstanceOut) : Status * option MultiSession * SessionStartStatus :=
  session_manager
    (instance_id ids) (project_id ids) (organization_id ids)
    (InitSsh_instance_ip process_factory (instance_id ids) (project_id ids)
                         (organization_id ids) "" 0%Z)
    (InitSsh_instance_port process_factory (instance_id ids) (project_id ids)
                           (organization_id ids) "" 0%Z)
    (workstation_directory request)
    None SessionStartStatus_kOk.

(** The calls that end [StartSession]: the two questions to the handle,
    when there is one, and the sink. *)
Definition closing_calls (l : Locals) : list Call :=
  match l_ms l with
  | Some _ =>
      [Call_GetSessionCount;
       Call_HasSessionForInstance (instance_id (l_ids l));
       routed_sink (l_ms l) (instance_id (l_ids l)) (l_evt l)]
  | None => [routed_sink (l_ms l) (instance_id (l_ids l)) (l_evt l)]
  end.

(** ** Facts about the string primitives *)

Lemma empty_iff s : Str.empty s = true <-> s = "".
Proof. destruct s; simpl; split; congruence. Qed.

Lemma empty_false_iff s : Str.empty s = false <-> s <> "".
Proof. destruct s; simpl; split; congruence. Qed.

Lemma StrSplit_not_nil s d : Str.StrSplit s d <> [].
Proof.
  destruct s as [|c s]; simpl; [discriminate|].
  destruct (Ascii.eqb c d); [discriminate|].
  destruct (Str.StrSplit s d); discriminate.
Qed.

(** [s.find(pat) == 0] says that [s] starts with [pat]. *)
Lemma find_at_zero_prefix s pat :
  match Str.find s pat with
  | Some O => true
  | _ => false
  end = String.prefix pat s.
Proof.
  unfold Str.find.
  destruct s as [|c s]; simpl.
  - destruct pat; reflexivity.
  - destruct pat as [|a pat]; [reflexivity|].
    simpl. destruct (ascii_dec a c); [destruct (String.prefix pat s)|];
      try reflexivity;
      destruct (String.index 0 (String a pat) s); reflexivity.
Qed.

(** [absl::StrSplit] gives the pieces between the delimiters: joining
    them restores the string, no piece holds a delimiter, and the pieces of
    a joined list are that list. *)
Lemma join_cons d p q ps :
  Spec.join d (p :: q :: ps) = p ++ String d (Spec.join d (q :: ps)).
Proof. reflexivity. Qed.

Lemma join_String d c p ps :
  Spec.join d (String c p :: ps) = String c (Spec.join d (p :: ps)).
Proof. destruct ps; reflexivity. Qed.

Lemma StrSplit_join s d : Spec.join d (Str.StrSplit s d) = s.
Proof.
  induction s as [|c s IH]; [reflexivity|].
  cbn [Str.StrSplit]. pose proof (StrSplit_not_nil s d) as Hne.
  destruct (Str.StrSplit s d) as [|p ps]; [congruence|].
  destruct (Ascii.eqb c d) eqn:Ec.
  - apply Ascii.eqb_eq in Ec. subst c.
    rewrite join_cons, IH. reflexivity.
  - rewrite join_String, IH. reflexivity.
Qed.

Lemma StrSplit_pieces s d p :
  In p (Str.StrSplit s d) -> Spec.contains d p = false.
Proof.
  revert p. induction s as [|c s IH]; intros p.
  - simpl. intros [<-|[]]. reflexivity.
  - cbn [Str.StrSplit]. destruct (Ascii.eqb_spec c d) as [->|Hn].
    + intros [<-|H]; [reflexivity|apply IH, H].
    + destruct (Str.StrSplit s d) as [|q qs] eqn:E.
      * destruct (StrSplit_not_nil s d E).
      * intros [<-|H].
        -- simpl. rewrite (IH q (or_introl eq_refl)).
           destruct (Ascii.eqb_spec c d); [contradiction|reflexivity].
        -- apply IH. right. exact H.
Qed.

Lemma StrSplit_append_delim p d r :
  Spec.contains d p = false ->
  Str.StrSplit (p ++ String d r) d = p :: Str.StrSplit r d.
Proof.
  induction p as [|c p IH]; simpl.
  - rewrite Ascii.eqb_refl. reflexivity.
  - intros H. apply orb_false_iff in H. destruct H as [Hc Hp].
    rewrite Hc, (IH Hp). reflexivity.
Qed.

Lemma StrSplit_no_delim p d :
  Spec.contains d p = false -> Str.StrSplit p d = [p].
Proof.
  induction p as [|c p IH]; simpl; [reflexivity|].
  intros H. apply orb_false_iff in H. destruct H as [Hc Hp].
  rewrite Hc, (IH Hp). reflexivity.
Qed.

Lemma StrSplit_of_join d pieces :
  pieces <> [] ->
  (forall p, In p pieces -> Spec.contains d p = false) ->
  Str.StrSplit (Spec.join d pieces) d = pieces.
Proof.
  induction pieces as [|p ps IH]; [congruence|]. intros _ H.
  destruct ps as [|q ps].
  - apply StrSplit_no_delim, H. left. reflexivity.
  - change (Spec.join d (p :: q :: ps))
      with (p ++ String d (Spec.join d (q :: ps))).
    rewrite StrSplit_append_delim by (apply H; left; reflexivity).
    rewrite IH; [reflexivity|discriminate|].
    intros r Hr. apply H. right. exact Hr.
Qed.

(** ** ParseInstanceName *)

Lemma ParseInstanceName_parse name out :
  ParseInstanceName name out =
    match Spec.parse name with
    | Some scope => (true, scope)
    | None => (false, out)
    end.
Proof.
  unfold ParseInstanceName, Spec.parse, Spec.scope_of.
  destruct (Str.StrSplit name "/") as
    [|s0 [|s1 [|s2 [|s3 [|s4 [|s5 [|s6 [|s7 [|s8 [|s9 [|s10 rest]]]]]]]]]]];
    try reflexivity.
  cbn [List.length Nat.eqb negb Str.at_ nth].
  destruct (s0 =? "organizations"), (Str.empty s1); try reflexivity;
    destruct (s2 =? "projects"), (Str.empty s3); try reflexivity;
    destruct (s4 =? "pools"), (Str.empty s5); try reflexivity;
    destruct (s6 =? "gamelets"), (Str.empty s7), (Str.empty s8),
      (Str.empty s9); reflexivity.
Qed.

Lemma scope_of_Some segments scope :
  Spec.scope_of segments = Some scope <->
  exists s1 s3 s5 s7 s8 s9,
    segments = ["organizations"; s1; "projects"; s3; "pools"; s5;
                "gamelets"; s7; s8; s9]
    /\ s1 <> "" /\ s3 <> "" /\ s5 <> "" /\ s7 <> "" /\ s8 <> "" /\ s9 <> ""
    /\ scope = mkInstanceOut (s7 ++ "/" ++ s8 ++ "/" ++ s9) s3 s1.
Proof.
  unfold Spec.scope_of. split.
  - destruct segments as
      [|s0 [|s1 [|s2 [|s3 [|s4 [|s5 [|s6 [|s7 [|s8 [|s9 [|s10 rest]]]]]]]]]]];
      try discriminate.
    destruct (_ && _) eqn:E; [|discriminate].
    intros [= <-].
    repeat (apply andb_prop in E; destruct E as [E ?]).
    repeat match goal with
           | H : (_ =? _) = true |- _ => apply String.eqb_eq in H; subst
           | H : negb _ = true |- _ =>
               apply negb_true_iff, empty_false_iff in H
           end.
    exists s1, s3, s5, s7, s8, s9. repeat split; assumption.
  - intros (s1 & s3 & s5 & s7 & s8 & s9 & -> & H1 & H3 & H5 & H7 & H8 & H9 & ->).
    apply empty_false_iff in H1, H3, H5, H7, H8, H9.
    rewrite H1, H3, H5, H7, H8, H9. reflexivity.
Qed.

(** C4. [ParseInstanceName] succeeds exactly when the name splits on '/'
    into exactly ten segments, segments 0, 2, 4, 6 being the literals
    organizations, projects, pools, gamelets and segments 1, 3, 5, 7, 8, 9
    being non-empty; it then returns segment 1 as organization id, segment
    3 as project id and segments 7, 8, 9 joined by '/' as instance id (the
    pool, segment 5, is not returned).  Every other name fails. *)
Theorem ParseInstanceName_ten_segments name out :
  (fst (ParseInstanceName name out) = true <->
   exists s1 s3 s5 s7 s8 s9,
     Str.StrSplit name "/" =
       ["organizations"; s1; "projects"; s3; "pools"; s5;
        "gamelets"; s7; s8; s9]
     /\ s1 <> "" /\ s3 <> "" /\ s5 <> "" /\ s7 <> "" /\ s8 <> "" /\ s9 <> "")
  /\
  (forall s0 s1 s2 s3 s4 s5 s6 s7 s8 s9,
     Str.StrSplit name "/" = [s0; s1; s2; s3; s4; s5; s6; s7; s8; s9] ->
     fst (ParseInstanceName name out) = true ->
     snd (ParseInstanceName name out) =
       mkInstanceOut (s7 ++ "/" ++ s8 ++ "/" ++ s9) s3 s1).
Proof.
  rewrite ParseInstanceName_parse. unfold Spec.parse. split.
  - destruct (Spec.scope_of _) as [scope|] eqn:E; simpl.
    + apply scope_of_Some in E.
      destruct E as (s1 & s3 & s5 & s7 & s8 & s9 & E & H).
      split; [intros _|reflexivity].
      exists s1, s3, s5, s7, s8, s9.
      destruct H as (H1 & H3 & H5 & H7 & H8 & H9 & _).
      repeat split; assumption.
    + split; [discriminate|].
      intros (s1 & s3 & s5 & s7 & s8 & s9 & E' & H).
      assert (Hs : Spec.scope_of (Str.StrSplit name "/") =
                   Some (mkInstanceOut (s7 ++ "/" ++ s8 ++ "/" ++ s9) s3 s1)).
      { apply scope_of_Some. exists s1, s3, s5, s7, s8, s9.
        destruct H as (H1 & H3 & H5 & H7 & H8 & H9).
        repeat split; assumption. }
      congruence.
  - intros s0 s1 s2 s3 s4 s5 s6 s7 s8 s9 E.
    destruct (Spec.scope_of _) as [scope|] eqn:Es; simpl; [|discriminate].
    intros _. apply scope_of_Some in Es.
    destruct Es as (t1 & t3 & t5 & t7 & t8 & t9 & E' & _ & _ & _ & _ & _ & _ & ->).
    rewrite E in E'. injection E' as -> -> -> -> -> -> -> -> -> ->.
    reflexivity.
Qed.

(** Membership in a list that is written out. *)
Ltac in_list := first [ left; reflexivity | right; in_list ].

(** Names built from the template parse, whatever the ids are, as long as
    they are non-empty and hold no '/'. *)
Lemma ParseInstanceName_template org proj pool a b c out :
  (forall s, In s [org; proj; pool; a; b; c] ->
             s <> "" /\ Spec.contains "/" s = false) ->
  ParseInstanceName
    (Spec.join "/" ["organizations"; org; "projects"; proj; "pools"; pool;
                    "gamelets"; a; b; c]) out
  = (true, mkInstanceOut (a ++ "/" ++ b ++ "/" ++ c) proj org).
Proof.
  intros H. rewrite ParseInstanceName_parse. unfold Spec.parse.
  rewrite StrSplit_of_join.
  - assert (E : Spec.scope_of
                  ["organizations"; org; "projects"; proj; "pools"; pool;
                   "gamelets"; a; b; c]
                = Some (mkInstanceOut (a ++ "/" ++ b ++ "/" ++ c) proj org)).
    { apply scope_of_Some. exists org, proj, pool, a, b, c.
      repeat split; apply H; in_list. }
    rewrite E. reflexivity.
  - discriminate.
  - intros p Hp. simpl in Hp.
    repeat (destruct Hp as [<-|Hp];
            [first [reflexivity | apply H; in_list]|]).
    destruct Hp.
Qed.

Lemma ParseInstanceName_false_keeps_out name out :
  fst (ParseInstanceName name out) = false ->
  snd (ParseInstanceName name out) = out.
Proof.
  rewrite ParseInstanceName_parse.
  destruct (Spec.parse name); simpl; [discriminate|reflexivity].
Qed.

(** C6. When [ParseInstanceName] fails, the three output strings hold
    what they held before the call: none of [instance_id], [project_id],
    [organization_id] is written. *)
Theorem ParseInstanceName_failure_writes_nothing name out :
  fst (ParseInstanceName name out) = false ->
  snd (ParseInstanceName name out) = out
  /\ instance_id (snd (ParseInstanceName name out)) = instance_id out
  /\ project_id (snd (ParseInstanceName name out)) = project_id out
  /\ organization_id (snd (ParseInstanceName name out)) = organization_id out.
Proof.
  rewrite ParseInstanceName_parse.
  destruct (Spec.parse name); simpl; [discriminate|].
  intros _. repeat split.
Qed.

(** ** ParseValue *)

Lemma length_append s t :
  String.length (s ++ t) = (String.length s + String.length t)%nat.
Proof. induction s as [|a s IH]; simpl; auto. Qed.

Lemma append_assoc_string (a b c : string) : (a ++ b) ++ c = a ++ b ++ c.
Proof. induction a as [|x a IH]; simpl; congruence. Qed.

Lemma lines_getline stream line rest :
  getline stream = Some (line, rest) ->
  Spec.lines stream = line :: Spec.lines rest.
Proof.
  revert line rest.
  induction stream as [|c s IH]; intros line rest; [discriminate|].
  cbn [getline read_until_LF Spec.lines].
  destruct (Ascii.eqb c Str.LF).
  - intros [= <- <-]. reflexivity.
  - destruct (read_until_LF s) as [l r] eqn:E. intros [= <- <-].
    destruct s as [|c' s'].
    + simpl in E. injection E as <- <-. reflexivity.
    + rewrite (IH l r); [reflexivity|]. unfold getline. rewrite E. reflexivity.
Qed.

(** The lines of a text are what was written line by line: each piece of
    [unlines] is a line, and so is an unterminated last piece. *)
Lemma lines_append_LF l r :
  Spec.contains Str.LF l = false ->
  Spec.lines (l ++ String Str.LF r) = l :: Spec.lines r.
Proof.
  induction l as [|c l IH]; [reflexivity|].
  cbn [Spec.contains String.append Spec.lines].
  intros H. apply orb_false_iff in H. destruct H as [Hc Hl].
  rewrite Hc, (IH Hl). reflexivity.
Qed.

Lemma lines_single l :
  l <> "" -> Spec.contains Str.LF l = false -> Spec.lines l = [l].
Proof.
  induction l as [|c l IH]; [congruence|]. intros _.
  cbn [Spec.contains Spec.lines].
  intros H. apply orb_false_iff in H. destruct H as [Hc Hl]. rewrite Hc.
  destruct l as [|c' l']; [reflexivity|].
  rewrite IH by (discriminate || assumption). reflexivity.
Qed.

Lemma lines_unlines ls last :
  (forall l, In l ls -> Spec.contains Str.LF l = false) ->
  Spec.contains Str.LF last = false ->
  Spec.lines (Spec.unlines ls ++ last) =
    (ls ++ if Str.empty last then [] else [last])%list.
Proof.
  intros Hls Hlast. induction ls as [|l ls IH].
  - cbn [Spec.unlines String.append app].
    destruct last as [|c r]; [reflexivity|].
    apply lines_single; [discriminate|assumption].
  - cbn [Spec.unlines app]. rewrite append_assoc_string.
    cbn [String.append].
    rewrite lines_append_LF by (apply Hls; left; reflexivity).
    rewrite IH; [reflexivity|]. intros x Hx. apply Hls. right. exact Hx.
Qed.

Lemma getline_None stream : getline stream = None -> stream = "".
Proof. destruct stream; [reflexivity|discriminate]. Qed.

Lemma length_drop n s : String.length (Spec.drop n s) = (String.length s - n)%nat.
Proof.
  revert s. induction n as [|n IH]; intros [|c s]; simpl; auto; lia.
Qed.

Lemma get_drop n i s : String.get i (Spec.drop n s) = String.get (n + i) s.
Proof.
  revert s. induction n as [|n IH]; intros [|c s]; simpl; auto.
Qed.

Lemma drop_get n s c :
  String.get n s = Some c -> Spec.drop n s = String c (Spec.drop (S n) s).
Proof.
  revert s. induction n as [|n IH]; intros [|a s]; simpl; try discriminate.
  - intros [= ->]. destruct s; reflexivity.
  - intros H. rewrite (IH _ H). reflexivity.
Qed.

Lemma get_Some_lt n s : (n < String.length s)%nat -> exists c, String.get n s = Some c.
Proof.
  revert s. induction n as [|n IH]; intros [|a s]; simpl; try lia.
  - eauto.
  - intros H. apply IH. lia.
Qed.

Lemma get_lt n s c : String.get n s = Some c -> (n < String.length s)%nat.
Proof.
  revert s. induction n as [|n IH]; intros [|a s]; simpl; try discriminate.
  - lia.
  - intros H. apply IH in H. lia.
Qed.

Lemma substring_drop n m s :
  String.substring n m s = String.substring 0 m (Spec.drop n s).
Proof.
  revert s. induction n as [|n IH]; intros [|a s]; simpl; auto.
  destruct m; reflexivity.
Qed.

Lemma substring_all m s :
  (String.length s <= m)%nat -> String.substring 0 m s = s.
Proof.
  revert m. induction s as [|a s IH]; intros [|m]; simpl; try lia; auto.
  intros H. rewrite IH by lia. reflexivity.
Qed.

Lemma substring_snoc m s c :
  String.get m s = Some c ->
  String.substring 0 (S m) s = String.substring 0 m s ++ String c "".
Proof.
  revert s. induction m as [|m IH]; intros [|a s]; try discriminate.
  - simpl. intros [= ->]. destruct s; reflexivity.
  - intros H. change (String.get m s = Some c) in H.
    change (String a (String.substring 0 (S m) s) =
            String a (String.substring 0 m s ++ String c "")).
    rewrite (IH _ H). reflexivity.
Qed.

Lemma strip_trailing_snoc s c :
  Spec.strip_trailing (s ++ String c "") =
    if Str.isspace c then Spec.strip_trailing s else s ++ String c "".
Proof.
  induction s as [|a s IH]; simpl.
  - destruct (Str.isspace c); reflexivity.
  - rewrite IH. destruct (Str.isspace c); [reflexivity|].
    destruct s; reflexivity.
Qed.

Lemma skip_leading_drop line :
  forall start_pos, (start_pos <= String.length line)%nat ->
  (start_pos <= skip_leading line start_pos <= String.length line)%nat
  /\ Spec.drop (skip_leading line start_pos) line =
     Spec.strip_leading (Spec.drop start_pos line).
Proof.
  intros start_pos.
  remember (String.length line - start_pos)%nat as k eqn:Ek.
  revert start_pos Ek.
  induction k as [|k IH]; intros p Ek Hp; rewrite skip_leading_equation_1;
    unfold Str.size; destruct (lt_dec p (String.length line)) as [Hlt|Hge];
    cbn; try lia.
  - split; [lia|].
    assert (Spec.drop p line = "") as ->; [|reflexivity].
    pose proof (length_drop p line) as L.
    destruct (Spec.drop p line); [reflexivity|simpl in L; lia].
  - unfold Str.isspace_at.
    destruct (get_Some_lt p line Hlt) as [c Hc]. rewrite Hc.
    rewrite (drop_get _ _ _ Hc). cbn [Spec.strip_leading].
    destruct (Str.isspace c) eqn:Ec; cbn.
    + destruct (IH (S p)) as [B E]; [lia|lia|]. split; [lia|exact E].
    + split; [lia|]. apply drop_get, Hc.
Qed.

Lemma skip_trailing_substring line start_pos :
  forall end_pos,
  (start_pos <= end_pos <= String.length line)%nat ->
  (start_pos <= skip_trailing line start_pos end_pos <= end_pos)%nat
  /\ String.substring start_pos
       (skip_trailing line start_pos end_pos - start_pos) line =
     Spec.strip_trailing
       (String.substring start_pos (end_pos - start_pos) line).
Proof.
  induction end_pos as [|e IH]; intros H.
  - simpl. split; [lia|].
    replace start_pos with O by lia. destruct line; reflexivity.
  - cbn [skip_trailing].
    destruct (Nat.ltb_spec start_pos (S e)) as [Hlt|Hge]; cbn [andb].
    + destruct (get_Some_lt e line) as [c Hc]; [lia|].
      assert (Hsub : String.substring start_pos (S e - start_pos) line =
                     String.substring start_pos (e - start_pos) line
                     ++ String c "").
      { rewrite 2 (substring_drop start_pos).
        replace (S e - start_pos)%nat with (S (e - start_pos)) by lia.
        apply substring_snoc. rewrite get_drop.
        replace (start_pos + (e - start_pos))%nat with e by lia. exact Hc. }
      rewrite Hsub, strip_trailing_snoc.
      unfold Str.isspace_at. rewrite Hc.
      destruct (Str.isspace c).
      * destruct IH as [B E]; [lia|]. split; [lia|exact E].
      * split; [lia|exact Hsub].
    + split; [lia|].
      replace (S e - start_pos)%nat with O by lia.
      rewrite (substring_drop start_pos).
      destruct (Spec.drop start_pos line); reflexivity.
Qed.

Lemma prefix_length p s :
  String.prefix p s = true -> (String.length p <= String.length s)%nat.
Proof.
  revert s. induction p as [|a p IH]; intros [|b s]; simpl; try lia;
    try discriminate.
  destruct (ascii_dec a b); [|discriminate]. intros H. apply IH in H. lia.
Qed.

(** [Spec.strip] removes white space only, and leaves none at either
    end. *)
Lemma strip_leading_split s :
  exists l, s = l ++ Spec.strip_leading s /\ Spec.all_space l = true.
Proof.
  induction s as [|c s IH]; [exists ""; split; reflexivity|].
  cbn [Spec.strip_leading]. destruct (Str.isspace c) eqn:Ec.
  - destruct IH as (l & E & Hl). exists (String c l). split.
    + simpl. rewrite <- E. reflexivity.
    + simpl. rewrite Ec, Hl. reflexivity.
  - exists "". split; reflexivity.
Qed.

Lemma strip_trailing_split s :
  exists r, s = Spec.strip_trailing s ++ r /\ Spec.all_space r = true.
Proof.
  induction s as [|c s IH]; [exists ""; split; reflexivity|].
  destruct IH as (r & E & Hr). cbn [Spec.strip_trailing].
  destruct (Spec.strip_trailing s) as [|c' t] eqn:Et.
  - simpl in E. subst r. destruct (Str.isspace c) eqn:Ec.
    + exists (String c s). split; [reflexivity|]. simpl. rewrite Ec, Hr.
      reflexivity.
    + exists s. split; [reflexivity|exact Hr].
  - exists r. split; [|exact Hr]. simpl. simpl in E. rewrite <- E.
    reflexivity.
Qed.

Lemma strip_decompose s :
  exists l r, s = l ++ Spec.strip s ++ r
              /\ Spec.all_space l = true /\ Spec.all_space r = true.
Proof.
  destruct (strip_leading_split s) as (l & El & Hl).
  destruct (strip_trailing_split (Spec.strip_leading s)) as (r & Er & Hr).
  exists l, r. unfold Spec.strip. rewrite <- Er. repeat split; assumption.
Qed.

Lemma strip_trailing_idempotent s :
  Spec.strip_trailing (Spec.strip_trailing s) = Spec.strip_trailing s.
Proof.
  induction s as [|c s IH]; [reflexivity|].
  cbn [Spec.strip_trailing].
  destruct (Spec.strip_trailing s) as [|c' t] eqn:Et.
  - destruct (Str.isspace c) eqn:Ec; [reflexivity|].
    simpl. rewrite Ec. reflexivity.
  - cbn [Spec.strip_trailing]. cbn [Spec.strip_trailing] in IH.
    rewrite IH. reflexivity.
Qed.

Lemma strip_leading_of_trailing s :
  Spec.strip_leading s = s ->
  Spec.strip_leading (Spec.strip_trailing s) = Spec.strip_trailing s.
Proof.
  destruct s as [|c s]; [reflexivity|].
  cbn [Spec.strip_leading Spec.strip_trailing].
  destruct (Str.isspace c) eqn:Ec.
  - intros H. exfalso.
    destruct (strip_leading_split s) as (l & El & _).
    apply (f_equal String.length) in H. apply (f_equal String.length) in El.
    rewrite length_append in El. simpl in H. lia.
  - intros _. destruct (Spec.strip_trailing s); simpl; rewrite Ec; reflexivity.
Qed.

Lemma strip_leading_idempotent s :
  Spec.strip_leading (Spec.strip_leading s) = Spec.strip_leading s.
Proof.
  induction s as [|c s IH]; [reflexivity|].
  cbn [Spec.strip_leading]. destruct (Str.isspace c) eqn:Ec; [exact IH|].
  simpl. rewrite Ec. reflexivity.
Qed.

Lemma strip_no_outer_space s :
  Spec.strip_leading (Spec.strip s) = Spec.strip s
  /\ Spec.strip_trailing (Spec.strip s) = Spec.strip s.
Proof.
  unfold Spec.strip. split.
  - apply strip_leading_of_trailing, strip_leading_idempotent.
  - apply strip_trailing_idempotent.
Qed.

(** The two index loops and [substr] compute the stripped remainder of a
    matching line. *)
Lemma trimmed_value_strip line key :
  Spec.matches key line = true ->
  trimmed_value line key =
    Spec.strip (Spec.drop (String.length key + 1) line).
Proof.
  intros Hm. apply prefix_length in Hm. rewrite length_append in Hm.
  simpl in Hm. unfold trimmed_value, Str.size, Str.substr, Spec.strip.
  destruct (skip_leading_drop line (String.length key + 1) Hm) as [B E].
  destruct (skip_trailing_substring line
              (skip_leading line (String.length key + 1))
              (String.length line)) as [_ E']; [lia|].
  rewrite E', <- E, (substring_drop (skip_leading line (String.length key + 1))).
  rewrite substring_all; [reflexivity|]. rewrite length_drop. lia.
Qed.

Lemma ParseValue_loop_lines stream key value :
  ParseValue_loop stream key value =
    match List.find (Spec.matches key) (Spec.lines stream) with
    | Some line => (true, trimmed_value line key)
    | None => (false, value)
    end.
Proof.
  remember (String.length stream) as k eqn:Ek.
  revert stream Ek.
  induction k as [k IH] using lt_wf_ind; intros stream ->.
  rewrite ParseValue_loop_equation_1.
  destruct (getline_inspect stream) as [[[line rest]|] E]; cbn.
  - rewrite (lines_getline _ _ _ E). cbn [List.find].
    rewrite find_at_zero_prefix. fold (Spec.matches key line).
    destruct (Spec.matches key line); [reflexivity|].
    apply (IH (String.length rest)); [|reflexivity].
    eapply getline_shorter; eassumption.
  - apply getline_None in E. subst stream. reflexivity.
Qed.

Lemma ParseValue_extract data key value :
  ParseValue data key value =
    match Spec.extract data key with
    | Some v => (true, v)
    | None => (false, value)
    end.
Proof.
  unfold ParseValue, Spec.extract. rewrite ParseValue_loop_lines.
  destruct (List.find _ _) as [line|] eqn:E; [|reflexivity].
  apply find_some in E. destruct E as [_ E].
  rewrite (trimmed_value_strip _ _ E). reflexivity.
Qed.

Lemma prefix_starts_with p s :
  String.prefix p s = true <-> Spec.starts_with p s.
Proof.
  unfold Spec.starts_with. revert s.
  induction p as [|a p IH]; intros s; simpl.
  - split; [eauto|destruct s; reflexivity].
  - destruct s as [|b s]; simpl.
    + split; [discriminate|]. intros [r H]. discriminate.
    + destruct (ascii_dec a b) as [->|Hn].
      * split.
        -- intros H. apply IH in H. destruct H as [r ->]. exists r. reflexivity.
        -- intros [r H]. apply IH. exists r. congruence.
      * split; [discriminate|]. intros [r H]. congruence.
Qed.

Lemma matches_starts_with key line :
  Spec.matches key line = true <-> Spec.starts_with (key ++ ":") line.
Proof. apply prefix_starts_with. Qed.

Lemma drop_append p r : Spec.drop (String.length p) (p ++ r) = r.
Proof. induction p as [|a p IH]; simpl; [destruct r|]; auto. Qed.

Lemma find_first {A} (f : A -> bool) before x after :
  (forall y, In y before -> f y = false) -> f x = true ->
  List.find f (before ++ x :: after)%list = Some x.
Proof.
  intros Hb Hx. induction before as [|y before IH]; simpl.
  - rewrite Hx. reflexivity.
  - rewrite (Hb y) by (left; reflexivity).
    apply IH. intros z Hz. apply Hb. right. exact Hz.
Qed.

(** C5. [ParseValue] returns the value of the first line that starts
    with the key followed by a colon, whatever lines come after it: the
    rest of that line after the colon, with leading and trailing white
    space stripped (also when nothing is left).  It reports not-found
    exactly when no line starts with the key and a colon, and then leaves
    the caller's value alone. *)
Theorem ParseValue_first_matching_line data key value :
  (forall before rest after,
     Spec.lines data = (before ++ (key ++ ":" ++ rest)%string :: after)%list ->
     (forall l, In l before -> ~ Spec.starts_with (key ++ ":") l) ->
     ParseValue data key value = (true, Spec.strip rest))
  /\ (fst (ParseValue data key value) = false <->
      forall l, In l (Spec.lines data) -> ~ Spec.starts_with (key ++ ":") l)
  /\ (fst (ParseValue data key value) = false ->
      snd (ParseValue data key value) = value).
Proof.
  rewrite ParseValue_extract. unfold Spec.extract. repeat split.
  - intros before rest after El Hb. rewrite El.
    rewrite (find_first (Spec.matches key) before (key ++ ":" ++ rest) after).
    + replace (String.length key + 1)%nat with (String.length (key ++ ":"))
        by (rewrite length_append; reflexivity).
      rewrite <- append_assoc_string, drop_append. reflexivity.
    + intros l Hl. specialize (Hb l Hl).
      rewrite <- matches_starts_with in Hb.
      destruct (Spec.matches key l); congruence.
    + apply matches_starts_with. exists rest. symmetry. apply append_assoc_string.
  - destruct (List.find _ _) eqn:E; [discriminate|].
    intros _ l Hl. rewrite <- matches_starts_with.
    rewrite (find_none _ _ E l Hl). discriminate.
  - intros H. destruct (List.find _ _) as [line|] eqn:E; [|reflexivity].
    apply find_some in E. destruct E as [Hin Hm].
    apply matches_starts_with in Hm. destruct (H line Hin Hm).
  - destruct (List.find _ _); [discriminate|reflexivity].
Qed.

(** ** atoi *)

Lemma digits_value_no_leading_digit acc s :
  Spec.no_leading_digit s = true -> Libc.digits_value acc s = acc.
Proof.
  destruct s as [|c s]; simpl; [reflexivity|].
  destruct (Str.isdigit c); [discriminate|reflexivity].
Qed.

Lemma digits_value_decimal digits rest :
  Spec.all_digits digits = true -> Spec.no_leading_digit rest = true ->
  forall acc,
    Libc.digits_value acc (digits ++ rest) =
      (acc * 10 ^ Z.of_nat (String.length digits) + Spec.decimal digits)%Z.
Proof.
  intros Hd Hr. induction digits as [|c s IH]; intros acc.
  - simpl String.append. rewrite digits_value_no_leading_digit by assumption.
    simpl. lia.
  - simpl in Hd. apply andb_prop in Hd. destruct Hd as [Hc Hs].
    cbn [String.append Libc.digits_value Spec.decimal String.length].
    rewrite Hc, (IH Hs). unfold Libc.digit_value.
    rewrite Nat2Z.inj_succ, Z.pow_succ_r by lia. ring.
Qed.

Lemma non_numeric_no_leading_digit s :
  Spec.non_numeric s = true -> Spec.no_leading_digit s = true.
Proof.
  destruct s as [|c s]; simpl; [reflexivity|].
  intros H. apply andb_prop in H. destruct H as [H _].
  exact H.
Qed.

Lemma non_numeric_c_str s :
  Spec.non_numeric s = true -> Spec.non_numeric (Libc.c_str s) = true.
Proof.
  induction s as [|c s IH]; simpl; [reflexivity|].
  intros H. apply andb_prop in H. destruct H as [Hc Hs].
  destruct (Ascii.eqb c Str.NUL); simpl; [reflexivity|].
  rewrite Hc, (IH Hs). reflexivity.
Qed.

Lemma non_numeric_skip_space s :
  Spec.non_numeric s = true -> Spec.non_numeric (Libc.skip_space s) = true.
Proof.
  induction s as [|c s IH]; simpl; [reflexivity|].
  intros H. destruct (Str.isspace c); [|exact H].
  apply andb_prop in H. destruct H as [_ H]. apply IH, H.
Qed.

(** Text without a digit reads as zero. *)
Lemma atoi_non_numeric s :
  Spec.non_numeric s = true ->
  Libc.atoi atoi_out_of_range (Libc.c_str s) = 0%Z.
Proof.
  intros H. apply non_numeric_c_str, non_numeric_skip_space in H.
  unfold Libc.atoi, Libc.parsed_integer.
  destruct (Libc.skip_space (Libc.c_str s)) as [|c t]; [reflexivity|].
  pose proof (non_numeric_no_leading_digit _ H) as Hc.
  simpl in H. apply andb_prop in H. destruct H as [_ Ht].
  apply non_numeric_no_leading_digit in Ht.
  rewrite (digits_value_no_leading_digit 0 t Ht).
  rewrite (digits_value_no_leading_digit 0 (String c t) Hc).
  destruct (Ascii.eqb c "-"), (Ascii.eqb c "+"); reflexivity.
Qed.

Lemma decimal_nonneg digits :
  Spec.all_digits digits = true -> (0 <= Spec.decimal digits)%Z.
Proof.
  induction digits as [|c s IH]; simpl; [lia|].
  intros H. apply andb_prop in H. destruct H as [Hc Hs].
  unfold Str.isdigit in Hc. apply andb_prop in Hc. destruct Hc as [Hc _].
  apply Nat.leb_le in Hc. specialize (IH Hs).
  assert (0 <= 10 ^ Z.of_nat (String.length s))%Z by (apply Z.pow_nonneg; lia).
  nia.
Qed.

Lemma c_str_digits digits rest :
  Spec.all_digits digits = true ->
  Libc.c_str (digits ++ rest) = digits ++ Libc.c_str rest.
Proof.
  induction digits as [|c s IH]; simpl; [reflexivity|].
  intros H. apply andb_prop in H. destruct H as [Hc Hs].
  destruct (Ascii.eqb_spec c Str.NUL) as [->|_]; [discriminate|].
  rewrite (IH Hs). reflexivity.
Qed.

Lemma no_leading_digit_c_str rest :
  Spec.no_leading_digit rest = true ->
  Spec.no_leading_digit (Libc.c_str rest) = true.
Proof.
  destruct rest as [|c s]; simpl; [reflexivity|].
  destruct (Ascii.eqb c Str.NUL); simpl; auto.
Qed.

Lemma isdigit_not_space_or_sign c :
  Str.isdigit c = true ->
  Str.isspace c = false /\ Ascii.eqb c "-" = false /\ Ascii.eqb c "+" = false.
Proof.
  unfold Str.isdigit, Str.isspace. intros H.
  apply andb_prop in H. destruct H as [H1 H2].
  apply Nat.leb_le in H1. apply Nat.leb_le in H2.
  repeat split.
  - apply orb_false_iff. split.
    + apply Nat.eqb_neq. lia.
    + apply andb_false_iff. right. apply Nat.leb_gt. lia.
  - destruct (Ascii.eqb_spec c "-") as [->|]; [vm_compute in H1; lia|reflexivity].
  - destruct (Ascii.eqb_spec c "+") as [->|]; [vm_compute in H1; lia|reflexivity].
Qed.

(** Text that begins with digits reads as the number of its digit
    prefix, whatever follows the digits. *)
Lemma atoi_digit_prefix digits rest :
  digits <> "" -> Spec.all_digits digits = true ->
  Spec.no_leading_digit rest = true ->
  (Spec.decimal digits <= Libc.INT_MAX)%Z ->
  Libc.atoi atoi_out_of_range (Libc.c_str (digits ++ rest)) =
    Spec.decimal digits.
Proof.
  intros Hne Hd Hr Hmax.
  pose proof (decimal_nonneg _ Hd) as H0.
  rewrite (c_str_digits _ _ Hd).
  unfold Libc.atoi, Libc.parsed_integer.
  destruct digits as [|c s]; [congruence|].
  pose proof Hd as Hd'. simpl in Hd'. apply andb_prop in Hd'.
  destruct Hd' as [Hc _].
  destruct (isdigit_not_space_or_sign c Hc) as (Hsp & Hm & Hp).
  cbn [String.append Libc.skip_space]. rewrite Hsp, Hm, Hp.
  change (String c (s ++ Libc.c_str rest))
    with (String c s ++ Libc.c_str rest).
  rewrite (digits_value_decimal _ _ Hd (no_leading_digit_c_str _ Hr)).
  replace (0 * 10 ^ Z.of_nat (String.length (String c s))
           + Spec.decimal (String c s))%Z
    with (Spec.decimal (String c s)) by lia.
  destruct (Z.leb_spec Libc.INT_MIN (Spec.decimal (String c s)));
    [|unfold Libc.INT_MIN in *; lia].
  destruct (Z.leb_spec (Spec.decimal (String c s)) Libc.INT_MAX);
    [reflexivity|lia].
Qed.

(** ** InitSsh *)

(** The result of [InitSsh] by the step that decides it. *)
Lemma InitSsh_result pf i p o ip0 port0 :
  fst (InitSsh pf i p o ip0 port0) =
    let process := ssh_process pf i p o in
    let output := captured_output process in
    if negb (ok (Start process))
    then (WrapStatus (Start process) "Failed to start ggp process", "", 0%Z)
    else if negb (ok (RunUntilExit process))
    then (WrapStatus (RunUntilExit process) "Failed to run ggp process",
          "", 0%Z)
    else if negb (ExitCode process =? 0)%N
    then (MakeStatus ("ggp process exited with code "
                      ++ StrFormat_u (ExitCode process)), "", 0%Z)
    else
      match Spec.extract output "Host" with
      | None =>
          (MakeStatus ("Failed to parse host from ggp ssh init response"
                       ++ LF_string ++ output), "", 0%Z)
      | Some host =>
          let port_string :=
            match Spec.extract output "Port" with
            | Some v => v
            | None => ""
            end in
          let int_port :=
            Libc.atoi atoi_out_of_range (Libc.c_str port_string) in
          if match Spec.extract output "Port" with
             | Some _ => false
             | None => true
             end
             || (int_port =? 0)%Z || (int_port <=? 0)%Z
             || (Libc.to_unsigned int_port >? Libc.UINT_MAX)%Z
          then (MakeStatus
                  ("Failed to parse ssh port from ggp ssh init response"
                   ++ LF_string ++ output), host, 0%Z)
          else (OkStatus, host, Libc.to_uint16 int_port)
      end.
Proof.
  unfold InitSsh, ssh_process, bind, call, ret.
  cbv zeta.
  set (process := pf (ssh_init_start_info i p o)).
  change ("" ++ captured_output process) with (captured_output process).
  set (output := captured_output process).
  destruct (ok (Start process)); cbn [negb fst]; [|reflexivity].
  destruct (ok (RunUntilExit process)); cbn [negb fst]; [|reflexivity].
  destruct (ExitCode process =? 0)%N; cbn [negb fst]; [|reflexivity].
  rewrite !ParseValue_extract.
  destruct (Spec.extract output "Host") as [host|]; cbn [negb fst];
    [|reflexivity].
  destruct (Spec.extract output "Port") as [v|]; cbn [negb fst orb].
  - destruct (_ || _); reflexivity.
  - reflexivity.
Qed.

Lemma StrFormat_u_inj a b : StrFormat_u a = StrFormat_u b -> a = b.
Proof.
  unfold StrFormat_u. intros H.
  apply (f_equal NilEmpty.uint_of_string) in H.
  rewrite !NilEmpty.usu in H. injection H as H.
  apply (f_equal N.of_uint) in H.
  rewrite !DecimalN.Unsigned.of_to in H. exact H.
Qed.

(** [MakeStatus] builds an error status. *)
Hypothesis MakeStatus_not_ok : forall msg, ok (MakeStatus msg) = false.

(** C7. When the process starts and runs to its exit and the exit code is
    not zero, [InitSsh] fails with the status made from "ggp process exited
    with code" followed by the exit code in decimal, from which the code
    can be read back; the captured output plays no part, and both output
    parameters stay cleared. *)
Theorem InitSsh_nonzero_exit_code pf i p o ip0 port0 :
  ok (Start (ssh_process pf i p o)) = true ->
  ok (RunUntilExit (ssh_process pf i p o)) = true ->
  ExitCode (ssh_process pf i p o) <> 0%N ->
  fst (InitSsh pf i p o ip0 port0) =
    (MakeStatus ("ggp process exited with code "
                 ++ StrFormat_u (ExitCode (ssh_process pf i p o))),
     "", 0%Z)
  /\ ok (InitSsh_status pf i p o ip0 port0) = false
  /\ (forall n, StrFormat_u n = StrFormat_u (ExitCode (ssh_process pf i p o)) ->
                n = ExitCode (ssh_process pf i p o)).
Proof.
  intros Hs Hr He. unfold InitSsh_status.
  rewrite InitSsh_result. cbv zeta. rewrite Hs, Hr.
  apply N.eqb_neq in He. rewrite He. cbn [negb fst].
  split; [reflexivity|]. split; [apply MakeStatus_not_ok|].
  intros n. apply StrFormat_u_inj.
Qed.

(** C8. When the process exits with code 0 and the Port line's trimmed
    value holds no digit, [atoi] reads it as zero and the zero is
    rejected: [InitSsh] fails and the port output stays 0; when the Host
    line was found the failure is the ssh-port parse error. *)
Theorem InitSsh_non_numeric_port pf i p o ip0 port0 v :
  ok (Start (ssh_process pf i p o)) = true ->
  ok (RunUntilExit (ssh_process pf i p o)) = true ->
  ExitCode (ssh_process pf i p o) = 0%N ->
  Spec.extract (captured_output (ssh_process pf i p o)) "Port" = Some v ->
  Spec.non_numeric v = true ->
  Libc.atoi atoi_out_of_range (Libc.c_str v) = 0%Z
  /\ ok (InitSsh_status pf i p o ip0 port0) = false
  /\ InitSsh_instance_port pf i p o ip0 port0 = 0%Z
  /\ (forall host,
        Spec.extract (captured_output (ssh_process pf i p o)) "Host"
          = Some host ->
        fst (InitSsh pf i p o ip0 port0) =
          (MakeStatus ("Failed to parse ssh port from ggp ssh init response"
                       ++ LF_string
                       ++ captured_output (ssh_process pf i p o)),
           host, 0%Z)).
Proof.
  intros Hs Hr He Hp Hv.
  pose proof (atoi_non_numeric v Hv) as Ha.
  unfold InitSsh_status, InitSsh_instance_port.
  rewrite InitSsh_result. cbv zeta. rewrite Hs, Hr, He, Hp, Ha.
  cbn [negb N.eqb Z.eqb orb].
  destruct (Spec.extract _ "Host") as [host|]; cbn [fst snd].
  - split; [reflexivity|]. split; [apply MakeStatus_not_ok|].
    split; [reflexivity|]. intros h [= ->]. reflexivity.
  - split; [reflexivity|]. split; [apply MakeStatus_not_ok|].
    split; [reflexivity|]. discriminate.
Qed.

(** The port check lets every positive [int] through, and the cast keeps
    its low 16 bits. *)
Lemma InitSsh_digit_prefix_int pf i p o ip0 port0 host digits rest :
  ok (Start (ssh_process pf i p o)) = true ->
  ok (RunUntilExit (ssh_process pf i p o)) = true ->
  ExitCode (ssh_process pf i p o) = 0%N ->
  Spec.extract (captured_output (ssh_process pf i p o)) "Host" = Some host ->
  Spec.extract (captured_output (ssh_process pf i p o)) "Port"
    = Some (digits ++ rest) ->
  digits <> "" -> Spec.all_digits digits = true ->
  Spec.no_leading_digit rest = true ->
  (1 <= Spec.decimal digits <= Libc.INT_MAX)%Z ->
  fst (InitSsh pf i p o ip0 port0) =
    (OkStatus, host, Libc.to_uint16 (Spec.decimal digits)).
Proof.
  intros Hs Hr He Hh Hp Hne Hd Hnd Hrange.
  rewrite InitSsh_result. cbv zeta. rewrite Hs, Hr, He, Hh, Hp.
  rewrite (atoi_digit_prefix digits rest Hne Hd Hnd) by lia.
  cbn [negb N.eqb orb].
  destruct (Z.eqb_spec (Spec.decimal digits) 0); [lia|].
  destruct (Z.leb_spec (Spec.decimal digits) 0); [lia|].
  assert (Hu : (Libc.to_unsigned (Spec.decimal digits) >? Libc.UINT_MAX)%Z
               = false).
  { unfold Libc.to_unsigned, Libc.UINT_MAX.
    pose proof (Z.mod_pos_bound (Spec.decimal digits) (2 ^ 32)) as B.
    destruct (Z.gtb_spec (Spec.decimal digits mod 2 ^ 32) (2 ^ 32 - 1));
      [lia|reflexivity]. }
  rewrite Hu. reflexivity.
Qed.

(** C10. A Port value that begins with digits and goes on with
    something that is no digit is not rejected: [atoi] reads the digit
    prefix, and when that number is between 1 and 65535 [InitSsh]
    succeeds with it as the port. *)
Theorem InitSsh_accepts_digit_prefix pf i p o ip0 port0 host digits rest :
  ok (Start (ssh_process pf i p o)) = true ->
  ok (RunUntilExit (ssh_process pf i p o)) = true ->
  ExitCode (ssh_process pf i p o) = 0%N ->
  Spec.extract (captured_output (ssh_process pf i p o)) "Host" = Some host ->
  Spec.extract (captured_output (ssh_process pf i p o)) "Port"
    = Some (digits ++ rest) ->
  digits <> "" -> Spec.all_digits digits = true ->
  Spec.no_leading_digit rest = true ->
  (1 <= Spec.decimal digits <= 65535)%Z ->
  Libc.atoi atoi_out_of_range (Libc.c_str (digits ++ rest))
    = Spec.decimal digits
  /\ fst (InitSsh pf i p o ip0 port0) = (OkStatus, host, Spec.decimal digits).
Proof.
  intros Hs Hr He Hh Hp Hne Hd Hnd Hrange.
  assert (Hmax : (Spec.decimal digits <= Libc.INT_MAX)%Z)
    by (unfold Libc.INT_MAX; lia).
  split; [apply atoi_digit_prefix; assumption|].
  rewrite (InitSsh_digit_prefix_int pf i p o ip0 port0 host digits rest)
    by (assumption || lia).
  unfold Libc.to_uint16. rewrite Z.mod_small by lia. reflexivity.
Qed.

(** C9. The two output parameters of [InitSsh] are not written together.
    Whenever [InitSsh] fails the port output holds 0.  The host output
    holds the extracted Host value from the moment the Host line is found:
    when the Port step then fails, the failure is the ssh-port parse error
    and the host output holds that value; on a failure before the Host
    line is found it is empty. *)
Theorem InitSsh_outputs_not_atomic pf i p o ip0 port0 :
  (ok (InitSsh_status pf i p o ip0 port0) = false ->
   InitSsh_instance_port pf i p o ip0 port0 = 0%Z)
  /\ (forall host,
        ok (Start (ssh_process pf i p o)) = true ->
        ok (RunUntilExit (ssh_process pf i p o)) = true ->
        ExitCode (ssh_process pf i p o) = 0%N ->
        Spec.extract (captured_output (ssh_process pf i p o)) "Host"
          = Some host ->
        ok (InitSsh_status pf i p o ip0 port0) = false ->
        InitSsh_instance_ip pf i p o ip0 port0 = host
        /\ InitSsh_status pf i p o ip0 port0 =
             MakeStatus
               ("Failed to parse ssh port from ggp ssh init response"
                ++ LF_string ++ captured_output (ssh_process pf i p o)))
  /\ (ok (Start (ssh_process pf i p o)) = false
      \/ ok (RunUntilExit (ssh_process pf i p o)) = false
      \/ ExitCode (ssh_process pf i p o) <> 0%N
      \/ Spec.extract (captured_output (ssh_process pf i p o)) "Host" = None ->
      InitSsh_instance_ip pf i p o ip0 port0 = "").
Proof.
  unfold InitSsh_status, InitSsh_instance_port, InitSsh_instance_ip.
  rewrite InitSsh_result. cbv zeta.
  destruct (ok (Start (ssh_process pf i p o))) eqn:Hs; cbn [negb];
    [|repeat split; intros; cbn; congruence].
  destruct (ok (RunUntilExit (ssh_process pf i p o))) eqn:Hr; cbn [negb];
    [|repeat split; intros; cbn; congruence].
  destruct (N.eqb_spec (ExitCode (ssh_process pf i p o)) 0) as [He|He];
    cbn [negb]; [|repeat split; intros; cbn; congruence].
  destruct (Spec.extract _ "Host") as [h|] eqn:Hh;
    [|repeat split; intros; cbn; congruence].
  destruct (_ || _); cbn [fst snd].
  - split; [reflexivity|]. split.
    + intros host _ _ _ [= ->] _. split; reflexivity.
    + intros [H|[H|[H|H]]]; congruence.
  - split; [discriminate|]. split.
    + intros host _ _ _ _ H. discriminate.
    + intros [H|[H|[H|H]]]; congruence.
Qed.

(** C1. What the code does on a Port value above 65535: with the tool
    printing Host 1.2.3.4 and Port 70000 and exiting with code 0,
    [InitSsh] returns OK with port 4464 (70000 modulo 65536), because the
    range check compares against [UINT_MAX] and the cast to [uint16_t]
    then truncates. *)
Theorem InitSsh_port_70000_truncated :
  fst (InitSsh
         (Examples.factory_of
            (Examples.printing_process (Examples.output_with_port "70000") 0))
         "edge/e-1/abc123" "p1" "o1" "" 0%Z)
  = (OkStatus, "1.2.3.4", 4464%Z).
Proof. vm_compute. reflexivity. Qed.

(** The same check lets 65536 through as port 0. *)
Example InitSsh_port_65536_is_zero :
  fst (InitSsh
         (Examples.factory_of
            (Examples.printing_process (Examples.output_with_port "65536") 0))
         "edge/e-1/abc123" "p1" "o1" "" 0%Z)
  = (OkStatus, "1.2.3.4", 0%Z).
Proof. vm_compute. reflexivity. Qed.

(** A Port value that reads as zero or as a negative [int] is
    rejected. *)
Lemma InitSsh_rejects_nonpositive_port pf i p o ip0 port0 host v :
  ok (Start (ssh_process pf i p o)) = true ->
  ok (RunUntilExit (ssh_process pf i p o)) = true ->
  ExitCode (ssh_process pf i p o) = 0%N ->
  Spec.extract (captured_output (ssh_process pf i p o)) "Host" = Some host ->
  Spec.extract (captured_output (ssh_process pf i p o)) "Port" = Some v ->
  (Libc.atoi atoi_out_of_range (Libc.c_str v) <= 0)%Z ->
  fst (InitSsh pf i p o ip0 port0) =
    (MakeStatus ("Failed to parse ssh port from ggp ssh init response"
                 ++ LF_string ++ captured_output (ssh_process pf i p o)),
     host, 0%Z).
Proof.
  intros Hs Hr He Hh Hp Hv. rewrite InitSsh_result. cbv zeta.
  rewrite Hs, Hr, He, Hh, Hp. cbn [negb N.eqb orb].
  destruct (Z.leb_spec (Libc.atoi atoi_out_of_range (Libc.c_str v)) 0);
    [|lia].
  rewrite orb_true_r. reflexivity.
Qed.

(** ** StartSession *)

Lemma InitSsh_trace_process pf i p o ip0 port0 c :
  In c (snd (InitSsh pf i p o ip0 port0)) -> is_process c = true.
Proof.
  unfold InitSsh, bind, call, ret. cbv zeta.
  destruct (ok (Start _)); cbn [negb snd app].
  2: { simpl. intros [<-|[<-|[]]]; reflexivity. }
  destruct (ok (RunUntilExit _)); cbn [negb snd app].
  2: { simpl. intros [<-|[<-|[<-|[]]]]; reflexivity. }
  destruct (negb (ExitCode _ =? 0)%N); cbn [snd app].
  { simpl. intros [<-|[<-|[<-|[<-|[]]]]]; reflexivity. }
  destruct (ParseValue _ "Host" _) as [found ip].
  destruct (negb found); cbn [snd app].
  { simpl. intros [<-|[<-|[<-|[<-|[]]]]]; reflexivity. }
  destruct (ParseValue _ "Port" _) as [result port_string].
  destruct (_ || _); simpl; intros [<-|[<-|[<-|[<-|[]]]]]; reflexivity.
Qed.

Lemma filter_nothing {A} (f : A -> bool) l :
  (forall x, In x l -> f x = false) -> filter f l = [].
Proof.
  induction l as [|x l IH]; intros H; simpl; [reflexivity|].
  rewrite (H x) by (left; reflexivity).
  apply IH. intros y Hy. apply H. right. exact Hy.
Qed.

Lemma filter_everything {A} (f : A -> bool) l :
  (forall x, In x l -> f x = true) -> filter f l = l.
Proof.
  induction l as [|x l IH]; intros H; simpl; [reflexivity|].
  rewrite (H x) by (left; reflexivity).
  rewrite IH; [reflexivity|]. intros y Hy. apply H. right. exact Hy.
Qed.

Lemma InitSsh_trace_no_sink pf i p o ip0 port0 :
  filter is_sink (snd (InitSsh pf i p o ip0 port0)) = [].
Proof.
  apply filter_nothing. intros c Hc. apply InitSsh_trace_process in Hc.
  destruct c; simpl in *; congruence.
Qed.

Lemma InitSsh_trace_no_registry_start pf i p o ip0 port0 :
  filter is_registry_start (snd (InitSsh pf i p o ip0 port0)) = [].
Proof.
  apply filter_nothing. intros c Hc. apply InitSsh_trace_process in Hc.
  destruct c; simpl in *; congruence.
Qed.

Lemma InitSsh_trace_no_event pf i p o ip0 port0 :
  dispatched_events (snd (InitSsh pf i p o ip0 port0)) = [].
Proof.
  unfold dispatched_events.
  pose proof (InitSsh_trace_process pf i p o ip0 port0) as H.
  induction (snd (InitSsh pf i p o ip0 port0)) as [|c t IH];
    [reflexivity|].
  simpl. rewrite IH by (intros c' Hc'; apply H; right; exact Hc').
  specialize (H c (or_introl eq_refl)). destruct c; simpl in *; congruence.
Qed.

(** A successfully parsed instance id is never empty. *)
Lemma ParseInstanceName_instance_id_nonempty name out ids :
  ParseInstanceName name out = (true, ids) ->
  Str.empty (instance_id ids) = false.
Proof.
  rewrite ParseInstanceName_parse. unfold Spec.parse.
  destruct (Spec.scope_of _) as [scope|] eqn:E; [|discriminate].
  intros [= <-]. apply scope_of_Some in E.
  destruct E as (s1 & s3 & s5 & s7 & s8 & s9 & _ & _ & _ & _ & H7 & _ & _ & ->).
  simpl. destruct s7; [congruence|reflexivity].
Qed.

(** [StartSession] returns the converted final status and makes the
    calls of [StartSession_run]. *)
Lemma StartSession_of_run sm pf request :
  StartSession sm pf request =
    (ToGrpcStatus (l_status (fst (StartSession_run sm pf request))),
     snd (StartSession_run sm pf request)).
Proof.
  unfold StartSession, bind, ret.
  destruct (StartSession_run sm pf request) as [l t]. simpl.
  rewrite List.app_nil_r. reflexivity.
Qed.

Lemma StartSession_record_sink l :
  (l_ms l <> None -> Str.empty (instance_id (l_ids l)) = false) ->
  filter is_sink (snd (StartSession_record l)) =
    [routed_sink (l_ms l) (instance_id (l_ids l)) (fst (StartSession_record l))]
  /\ dispatched_events (snd (StartSession_record l)) = [fst (StartSession_record l)]
  /\ filter is_registry_start (snd (StartSession_record l)) = []
  /\ filter is_process (snd (StartSession_record l)) = []
  /\ evt_absl_status (fst (StartSession_record l)) = code (l_status l).
Proof.
  unfold StartSession_record, routed_sink, bind, call, ret.
  destruct (l_ms l) as [ms|]; intros H.
  - rewrite H by discriminate. cbn [negb].
    destruct (HasSessionForInstance ms (instance_id (l_ids l)));
      repeat split; reflexivity.
  - repeat split; reflexivity.
Qed.

Lemma StartSession_run_eq sm pf request :
  StartSession_run sm pf request =
    (mkLocals
       (l_status (fst (StartSession_attempt sm pf request)))
       (l_ms (fst (StartSession_attempt sm pf request)))
       (l_ids (fst (StartSession_attempt sm pf request)))
       (l_instance_ip (fst (StartSession_attempt sm pf request)))
       (l_instance_port (fst (StartSession_attempt sm pf request)))
       (fst (StartSession_record (fst (StartSession_attempt sm pf request)))),
     (snd (StartSession_attempt sm pf request)
      ++ snd (StartSession_record (fst (StartSession_attempt sm pf request))))%list).
Proof.
  unfold StartSession_run, bind, ret.
  destruct (StartSession_attempt sm pf request) as [l t]. cbn [fst snd].
  destruct (StartSession_record l) as [evt t']. cbn [fst snd].
  rewrite List.app_nil_r. reflexivity.
Qed.

(** The attempt when the name does not parse: no call at all. *)
Lemma StartSession_attempt_parse_failure sm pf request :
  fst (ParseInstanceName (gamelet_name request) (mkInstanceOut "" "" ""))
    = false ->
  snd (StartSession_attempt sm pf request) = []
  /\ l_ms (fst (StartSession_attempt sm pf request)) = None
  /\ l_ids (fst (StartSession_attempt sm pf request)) = mkInstanceOut "" "" ""
  /\ l_status (fst (StartSession_attempt sm pf request)) =
       InvalidArgumentError
         ("Failed to parse instance name '" ++ gamelet_name request ++ "'").
Proof.
  intros H. pose proof (ParseInstanceName_false_keeps_out
                          (gamelet_name request) (mkInstanceOut "" "" "") H) as E.
  unfold StartSession_attempt.
  destruct (ParseInstanceName _ _) as [parsed ids]. simpl in H, E.
  subst parsed ids. cbn. repeat split.
Qed.

(** The attempt when the name parses: the calls of [InitSsh], then the
    registry call exactly when [InitSsh] succeeded. *)
Lemma StartSession_attempt_parsed sm pf request ids :
  ParseInstanceName (gamelet_name request) (mkInstanceOut "" "" "")
    = (true, ids) ->
  l_ids (fst (StartSession_attempt sm pf request)) = ids
  /\ (ok (InitSsh_status pf (instance_id ids) (project_id ids)
                         (organization_id ids) "" 0%Z) = false ->
      snd (StartSession_attempt sm pf request) =
        snd (InitSsh pf (instance_id ids) (project_id ids)
                     (organization_id ids) "" 0%Z)
      /\ l_ms (fst (StartSession_attempt sm pf request)) = None
      /\ l_status (fst (StartSession_attempt sm pf request)) =
           InitSsh_status pf (instance_id ids) (project_id ids)
                          (organization_id ids) "" 0%Z)
  /\ (ok (InitSsh_status pf (instance_id ids) (project_id ids)
                         (organization_id ids) "" 0%Z) = true ->
      snd (StartSession_attempt sm pf request) =
        (snd (InitSsh pf (instance_id ids) (project_id ids)
                      (organization_id ids) "" 0%Z)
         ++ [Call_SessionManagerStartSession
               (instance_id ids) (project_id ids) (organization_id ids)
               (InitSsh_instance_ip pf (instance_id ids) (project_id ids)
                                    (organization_id ids) "" 0%Z)
               (InitSsh_instance_port pf (instance_id ids) (project_id ids)
                                      (organization_id ids) "" 0%Z)
               (workstation_directory request)])%list).
Proof.
  intros E. unfold StartSession_attempt, InitSsh_status, InitSsh_instance_ip,
    InitSsh_instance_port, bind, call, ret.
  rewrite E. cbn [negb].
  destruct (InitSsh pf _ _ _ "" 0%Z) as [[[status ip] port] t].
  cbn [fst snd].
  destruct (ok status).
  - destruct (sm _ _ _ _ _ _ _ _) as [[st ms] ss]. cbn.
    split; [reflexivity|]. split; [discriminate|]. intros _. reflexivity.
  - cbn. rewrite List.app_nil_r.
    split; [reflexivity|]. split; [|discriminate]. intros _.
    repeat split.
Qed.

Lemma StartSession_attempt_handle_id sm pf request :
  l_ms (fst (StartSession_attempt sm pf request)) <> None ->
  Str.empty (instance_id (l_ids (fst (StartSession_attempt sm pf request))))
    = false.
Proof.
  destruct (ParseInstanceName (gamelet_name request) (mkInstanceOut "" "" ""))
    as [[|] ids] eqn:E.
  - intros _.
    destruct (StartSession_attempt_parsed sm pf request ids E) as [-> _].
    eapply ParseInstanceName_instance_id_nonempty; eassumption.
  - intros H. exfalso. apply H.
    apply (StartSession_attempt_parse_failure sm pf request).
    rewrite E. reflexivity.
Qed.

Lemma StartSession_attempt_no_sink sm pf request :
  filter is_sink (snd (StartSession_attempt sm pf request)) = []
  /\ dispatched_events (snd (StartSession_attempt sm pf request)) = [].
Proof.
  destruct (ParseInstanceName (gamelet_name request) (mkInstanceOut "" "" ""))
    as [[|] ids] eqn:E.
  - destruct (StartSession_attempt_parsed sm pf request ids E)
      as (_ & Hfail & Hok).
    destruct (ok (InitSsh_status pf (instance_id ids) (project_id ids)
                                 (organization_id ids) "" 0%Z)).
    + rewrite (Hok eq_refl). unfold dispatched_events.
      rewrite filter_app, flat_map_app.
      fold (dispatched_events
              (snd (InitSsh pf (instance_id ids) (project_id ids)
                            (organization_id ids) "" 0%Z))).
      rewrite InitSsh_trace_no_sink, InitSsh_trace_no_event.
      split; reflexivity.
    + destruct (Hfail eq_refl) as (-> & _).
      split; [apply InitSsh_trace_no_sink|apply InitSsh_trace_no_event].
  - destruct (StartSession_attempt_parse_failure sm pf request) as (-> & _);
      [rewrite E; reflexivity|].
    split; reflexivity.
Qed.

(** C2. Every [StartSession] request hands its telemetry event to exactly
    one sink, whatever the parser, the resolver and the registry do: the
    calls made contain one sink call, and it is the global sink when no
    registry handle exists, the per-instance sink of the handle for the
    parsed instance id when the handle reports a session for that id, and
    the multi-session sink of the handle otherwise. *)
Theorem StartSession_exactly_one_sink sm pf request :
  filter is_sink (snd (StartSession sm pf request)) =
    [routed_sink
       (l_ms (fst (StartSession_run sm pf request)))
       (instance_id (l_ids (fst (StartSession_run sm pf request))))
       (l_evt (fst (StartSession_run sm pf request)))].
Proof.
  rewrite StartSession_of_run, StartSession_run_eq. cbn [fst snd l_ms l_ids l_evt].
  rewrite filter_app.
  destruct (StartSession_attempt_no_sink sm pf request) as [-> _].
  destruct (StartSession_record_sink (fst (StartSession_attempt sm pf request))
              (StartSession_attempt_handle_id sm pf request)) as [-> _].
  reflexivity.
Qed.

(** C3. The steps of [StartSession] short-circuit.  When the name does
    not parse, no call is made on a process or on the registry and the
    status is InvalidArgument.  When the name parses, the process calls are
    those of [InitSsh]; when [InitSsh] fails its status is the final one
    and the registry is not called; when it succeeds the registry is called
    once.  On every path one event is handed to a sink, carrying the code
    of the final status, and the converted final status is returned. *)
Theorem StartSession_short_circuit sm pf request :
  (fst (ParseInstanceName (gamelet_name request) (mkInstanceOut "" "" ""))
     = false ->
   filter is_process (snd (StartSession sm pf request)) = []
   /\ filter is_registry_start (snd (StartSession sm pf request)) = []
   /\ code (l_status (fst (StartSession_run sm pf request)))
      = kInvalidArgument)
  /\ (forall ids,
        ParseInstanceName (gamelet_name request) (mkInstanceOut "" "" "")
          = (true, ids) ->
        filter is_process (snd (StartSession sm pf request)) =
          snd (InitSsh pf (instance_id ids) (project_id ids)
                       (organization_id ids) "" 0%Z)
        /\ (ok (InitSsh_status pf (instance_id ids) (project_id ids)
                               (organization_id ids) "" 0%Z) = false ->
            filter is_registry_start (snd (StartSession sm pf request)) = []
            /\ l_status (fst (StartSession_run sm pf request)) =
                 InitSsh_status pf (instance_id ids) (project_id ids)
                                (organization_id ids) "" 0%Z)
        /\ (ok (InitSsh_status pf (instance_id ids) (project_id ids)
                               (organization_id ids) "" 0%Z) = true ->
            List.length
              (filter is_registry_start (snd (StartSession sm pf request)))
            = 1%nat))
  /\ dispatched_events (snd (StartSession sm pf request)) =
       [l_evt (fst (StartSession_run sm pf request))]
  /\ evt_absl_status (l_evt (fst (StartSession_run sm pf request))) =
       code (l_status (fst (StartSession_run sm pf request)))
  /\ fst (StartSession sm pf request) =
       ToGrpcStatus (l_status (fst (StartSession_run sm pf request))).
Proof.
  rewrite StartSession_of_run, StartSession_run_eq.
  cbn [fst snd l_status l_evt].
  destruct (StartSession_record_sink (fst (StartSession_attempt sm pf request))
              (StartSession_attempt_handle_id sm pf request))
    as (_ & Hev & Hreg & Hproc & Hcode).
  destruct (StartSession_attempt_no_sink sm pf request) as [_ Hnoev].
  rewrite !filter_app, Hreg, Hproc, !List.app_nil_r.
  repeat apply conj.
  - intros Hfail.
    destruct (StartSession_attempt_parse_failure sm pf request Hfail)
      as (-> & _ & _ & ->).
    repeat split.
  - intros ids E.
    destruct (StartSession_attempt_parsed sm pf request ids E)
      as (_ & Hfail & Hok).
    pose proof (InitSsh_trace_process pf (instance_id ids) (project_id ids)
                  (organization_id ids) "" 0%Z) as Hp.
    assert (Hall : filter is_process
                     (snd (InitSsh pf (instance_id ids) (project_id ids)
                                   (organization_id ids) "" 0%Z))
                   = snd (InitSsh pf (instance_id ids) (project_id ids)
                                  (organization_id ids) "" 0%Z)).
    { apply filter_everything, Hp. }
    destruct (ok (InitSsh_status pf (instance_id ids) (project_id ids)
                                 (organization_id ids) "" 0%Z)).
    + rewrite (Hok eq_refl), !filter_app, Hall,
        InitSsh_trace_no_registry_start.
      repeat split; try discriminate. simpl. apply List.app_nil_r.
    + destruct (Hfail eq_refl) as (-> & _ & ->).
      rewrite InitSsh_trace_no_registry_start.
      repeat split; try discriminate. exact Hall.
  - unfold dispatched_events in *. rewrite flat_map_app, Hnoev, Hev.
    reflexivity.
  - exact Hcode.
  - reflexivity.
Qed.

(** ** More about InitSsh *)

Lemma InitSsh_trace_shape pf i p o ip0 port0 :
  snd (InitSsh pf i p o ip0 port0) =
    firstn (calls_reached (ssh_process pf i p o))
           (process_calls (ssh_init_start_info i p o)).
Proof.
  unfold InitSsh, calls_reached, process_calls, ssh_process, bind, call, ret.
  cbv zeta.
  destruct (ok (Start _)); cbn [negb snd app firstn]; [|reflexivity].
  destruct (ok (RunUntilExit _)); cbn [negb snd app firstn]; [|reflexivity].
  destruct (negb (ExitCode _ =? 0)%N); cbn [snd app]; [reflexivity|].
  destruct (ParseValue _ "Host" _) as [found ip].
  destruct (negb found); cbn [snd app]; [reflexivity|].
  destruct (ParseValue _ "Port" _) as [result port_string].
  destruct (_ || _); reflexivity.
Qed.

(** X11. [InitSsh] drives one process and stops at the first failing
    step: it creates the process from the command built for the ids, then
    calls [Start], [RunUntilExit] and [ExitCode] in this order, never
    [RunUntilExit] after a failed [Start] and never [ExitCode] after a failed
    [RunUntilExit]. *)
Theorem InitSsh_calls_in_order pf i p o ip0 port0 :
  snd (InitSsh pf i p o ip0 port0) =
    firstn (calls_reached (ssh_process pf i p o))
           (process_calls (ssh_init_start_info i p o)).
Proof.
  unfold InitSsh, calls_reached, process_calls, ssh_process, bind, call, ret.
  cbv zeta.
  destruct (ok (Start _)); cbn [negb snd app firstn]; [|reflexivity].
  destruct (ok (RunUntilExit _)); cbn [negb snd app firstn]; [|reflexivity].
  destruct (negb (ExitCode _ =? 0)%N); cbn [snd app]; [reflexivity|].
  destruct (ParseValue _ "Host" _) as [found ip].
  destruct (negb found); cbn [snd app]; [reflexivity|].
  destruct (ParseValue _ "Port" _) as [result port_string].
  destruct (_ || _); reflexivity.
Qed.

Lemma to_unsigned_within x :
  (Libc.to_unsigned x >? Libc.UINT_MAX)%Z = false.
Proof.
  unfold Libc.to_unsigned, Libc.UINT_MAX.
  pose proof (Z.mod_pos_bound x (2 ^ 32)) as B.
  destruct (Z.gtb_spec (x mod 2 ^ 32) (2 ^ 32 - 1)); [lia|reflexivity].
Qed.

(** [WrapStatus] keeps a failure a failure. *)
Hypothesis WrapStatus_not_ok :
  forall inner msg, ok inner = false -> ok (WrapStatus inner msg) = false.

(** X12. [InitSsh] succeeds exactly when the process starts, runs to its
    exit with code 0, and its output has a Host line and a Port line whose
    value [atoi] reads as a positive number.  It then returns the Host
    value as the address, whatever that text is, and the low 16 bits of the
    number as the port. *)
Theorem InitSsh_succeeds_exactly_when pf i p o ip0 port0 :
  (ok (InitSsh_status pf i p o ip0 port0) = true <->
   ok (Start (ssh_process pf i p o)) = true
   /\ ok (RunUntilExit (ssh_process pf i p o)) = true
   /\ ExitCode (ssh_process pf i p o) = 0%N
   /\ exists host v,
        Spec.extract (captured_output (ssh_process pf i p o)) "Host" = Some host
        /\ Spec.extract (captured_output (ssh_process pf i p o)) "Port" = Some v
        /\ (0 < Libc.atoi atoi_out_of_range (Libc.c_str v))%Z)
  /\ (forall host v,
        ok (InitSsh_status pf i p o ip0 port0) = true ->
        Spec.extract (captured_output (ssh_process pf i p o)) "Host" = Some host ->
        Spec.extract (captured_output (ssh_process pf i p o)) "Port" = Some v ->
        fst (InitSsh pf i p o ip0 port0) =
          (OkStatus, host,
           (Libc.atoi atoi_out_of_range (Libc.c_str v) mod 65536)%Z)).
Proof.
  unfold InitSsh_status. rewrite InitSsh_result. cbv zeta.
  destruct (ok (Start (ssh_process pf i p o))) eqn:Hs; cbn [negb].
  2: { cbn [fst]. rewrite (WrapStatus_not_ok _ _ Hs).
       split; [split; [discriminate|intros (H & _); discriminate]|].
       intros host v H. discriminate. }
  destruct (ok (RunUntilExit (ssh_process pf i p o))) eqn:Hr; cbn [negb].
  2: { cbn [fst]. rewrite (WrapStatus_not_ok _ _ Hr).
       split; [split; [discriminate|intros (_ & H & _); discriminate]|].
       intros host v H. discriminate. }
  destruct (N.eqb_spec (ExitCode (ssh_process pf i p o)) 0) as [He|He];
    cbn [negb].
  2: { cbn [fst]. rewrite MakeStatus_not_ok.
       split; [split; [discriminate|intros (_ & _ & H & _); congruence]|].
       intros host v H. discriminate. }
  destruct (Spec.extract _ "Host") as [h|] eqn:Hh.
  2: { cbn [fst]. rewrite MakeStatus_not_ok.
       split; [split; [discriminate|]|].
       - intros (_ & _ & _ & host & v & H & _). discriminate.
       - intros host v H. discriminate. }
  destruct (Spec.extract _ "Port") as [pv|] eqn:Hp.
  2: { cbn [orb fst]. rewrite MakeStatus_not_ok.
       split; [split; [discriminate|]|].
       - intros (_ & _ & _ & host & v & _ & H & _). discriminate.
       - intros host v H. discriminate. }
  rewrite to_unsigned_within, orb_false_r. cbn [orb].
  destruct (Z.eqb_spec (Libc.atoi atoi_out_of_range (Libc.c_str pv)) 0)
    as [E0|E0]; cbn [orb].
  { cbn [fst]. rewrite MakeStatus_not_ok.
    split; [split; [discriminate|]|].
    - intros (_ & _ & _ & host & v & _ & [= <-] & H). lia.
    - intros host v H. discriminate. }
  destruct (Z.leb_spec (Libc.atoi atoi_out_of_range (Libc.c_str pv)) 0)
    as [El|El].
  { cbn [fst]. rewrite MakeStatus_not_ok.
    split; [split; [discriminate|]|].
    - intros (_ & _ & _ & host & v & _ & [= <-] & H). lia.
    - intros host v H. discriminate. }
  cbn [fst]. split.
  - split; [intros _|reflexivity].
    split; [reflexivity|]. split; [reflexivity|]. split; [exact He|].
    exists h, pv. split; [reflexivity|]. split; [reflexivity|exact El].
  - intros host v _ [= <-] [= <-]. reflexivity.
Qed.

Lemma fold_left_append_from chunks acc :
  fold_left String.append chunks acc = acc ++ String.concat "" chunks.
Proof.
  revert acc. induction chunks as [|x xs IH]; intros acc.
  - simpl. symmetry. induction acc as [|c acc IHa]; simpl; congruence.
  - cbn [fold_left]. rewrite IH.
    destruct xs as [|y ys].
    + simpl. rewrite append_assoc_string. f_equal.
      induction x as [|c x IHx]; simpl; congruence.
    + rewrite append_assoc_string. reflexivity.
Qed.

Lemma captured_output_concat process :
  captured_output process = String.concat "" (stdout_chunks process).
Proof. unfold captured_output. apply fold_left_append_from. Qed.

(** X13. Only the bytes of the output count, not how they arrive: two
    processes that answer [Start], [RunUntilExit] and [ExitCode] alike and
    whose output chunks concatenate to the same text give the same result,
    so a Host or Port line cut across chunks is read like a whole one. *)
Theorem InitSsh_chunking_irrelevant pf pf' i p o ip0 port0 :
  Start (ssh_process pf i p o) = Start (ssh_process pf' i p o) ->
  RunUntilExit (ssh_process pf i p o) = RunUntilExit (ssh_process pf' i p o) ->
  ExitCode (ssh_process pf i p o) = ExitCode (ssh_process pf' i p o) ->
  String.concat "" (stdout_chunks (ssh_process pf i p o))
  = String.concat "" (stdout_chunks (ssh_process pf' i p o)) ->
  InitSsh pf i p o ip0 port0 = InitSsh pf' i p o ip0 port0.
Proof.
  intros Hs Hr He Hc.
  rewrite (surjective_pairing (InitSsh pf i p o ip0 port0)).
  rewrite (surjective_pairing (InitSsh pf' i p o ip0 port0)).
  rewrite !InitSsh_trace_shape, !InitSsh_result. cbv zeta.
  unfold calls_reached.
  rewrite !captured_output_concat, <- Hs, <- Hr, <- He, <- Hc. reflexivity.
Qed.

(** X14. Without a Host line the resolver fails with the host parse error,
    which carries the whole captured output; the Port line is not looked
    at and both outputs stay cleared. *)
Theorem InitSsh_host_missing pf i p o ip0 port0 :
  ok (Start (ssh_process pf i p o)) = true ->
  ok (RunUntilExit (ssh_process pf i p o)) = true ->
  ExitCode (ssh_process pf i p o) = 0%N ->
  (forall l, In l (Spec.lines (captured_output (ssh_process pf i p o))) ->
             ~ Spec.starts_with "Host:" l) ->
  fst (InitSsh pf i p o ip0 port0) =
    (MakeStatus ("Failed to parse host from ggp ssh init response"
                 ++ LF_string ++ captured_output (ssh_process pf i p o)),
     "", 0%Z)
  /\ ok (InitSsh_status pf i p o ip0 port0) = false.
Proof.
  intros Hs Hr He Hno. unfold InitSsh_status.
  rewrite InitSsh_result. cbv zeta. rewrite Hs, Hr, He. cbn [negb N.eqb].
  assert (Hx : Spec.extract (captured_output (ssh_process pf i p o)) "Host"
               = None).
  { unfold Spec.extract.
    destruct (find _ _) as [line|] eqn:E; [|reflexivity].
    apply find_some in E. destruct E as [Hin Hm].
    apply matches_starts_with in Hm. destruct (Hno line Hin Hm). }
  rewrite Hx. cbn [fst]. split; [reflexivity|apply MakeStatus_not_ok].
Qed.

(** ** More about StartSession *)

Lemma StartSession_attempt_registry sm pf request ids :
  ParseInstanceName (gamelet_name request) (mkInstanceOut "" "" "")
    = (true, ids) ->
  ok (InitSsh_status pf (instance_id ids) (project_id ids)
                     (organization_id ids) "" 0%Z) = true ->
  l_status (fst (StartSession_attempt sm pf request))
    = fst (fst (registry_answer sm pf request ids))
  /\ l_ms (fst (StartSession_attempt sm pf request))
     = snd (fst (registry_answer sm pf request ids))
  /\ evt_status (l_evt (fst (StartSession_attempt sm pf request)))
     = snd (registry_answer sm pf request ids).
Proof.
  intros E. unfold StartSession_attempt, registry_answer, InitSsh_status,
    InitSsh_instance_ip, InitSsh_instance_port, bind, call, ret.
  rewrite E. cbn [negb].
  destruct (InitSsh pf _ _ _ "" 0%Z) as [[[status ip] port] t].
  cbn [fst snd]. intros ->.
  cbn [evt_status set_ids].
  destruct (sm _ _ _ _ _ _ _ _) as [[st ms] ss]. cbn.
  repeat split.
Qed.

Lemma StartSession_attempt_event sm pf request :
  evt_origin (l_evt (fst (StartSession_attempt sm pf request)))
    = ConvertOrigin (origin request)
  /\ evt_project_id (l_evt (fst (StartSession_attempt sm pf request)))
     = project_id (l_ids (fst (StartSession_attempt sm pf request)))
  /\ evt_organization_id (l_evt (fst (StartSession_attempt sm pf request)))
     = organization_id (l_ids (fst (StartSession_attempt sm pf request))).
Proof.
  pose proof (ParseInstanceName_false_keeps_out (gamelet_name request)
                (mkInstanceOut "" "" "")) as Hkeep.
  unfold StartSession_attempt, bind, call, ret.
  destruct (ParseInstanceName _ _) as [[|] ids]; cbn [negb].
  - destruct (InitSsh pf _ _ _ "" 0%Z) as [[[status ip] port] t].
    destruct (ok status).
    + destruct (sm _ _ _ _ _ _ _ _) as [[st ms] ss]. cbn. repeat split.
    + cbn. repeat split.
  - cbn in *. rewrite (Hkeep eq_refl). repeat split.
Qed.

Lemma StartSession_record_result l :
  Str.empty (instance_id (l_ids l)) = false ->
  StartSession_record l =
    (match l_ms l with
     | Some handle =>
         set_concurrent_session_count
           (set_absl_status (l_evt l) (code (l_status l)))
           (GetSessionCount handle)
     | None => set_absl_status (l_evt l) (code (l_status l))
     end,
     match l_ms l with
     | Some handle =>
         [Call_GetSessionCount;
          Call_HasSessionForInstance (instance_id (l_ids l));
          routed_sink (l_ms l) (instance_id (l_ids l))
            (set_concurrent_session_count
               (set_absl_status (l_evt l) (code (l_status l)))
               (GetSessionCount handle))]
     | None => [Call_RecordEvent
                  (set_absl_status (l_evt l) (code (l_status l)))
                  kSessionStart]
     end).
Proof.
  intros H. unfold StartSession_record, routed_sink, bind, call, ret.
  destruct (l_ms l) as [handle|]; [|reflexivity].
  rewrite H. cbn [negb].
  destruct (HasSessionForInstance handle (instance_id (l_ids l)));
    reflexivity.
Qed.

Lemma StartSession_record_no_handle l :
  l_ms l = None ->
  StartSession_record l =
    (set_absl_status (l_evt l) (code (l_status l)),
     [Call_RecordEvent (set_absl_status (l_evt l) (code (l_status l)))
                       kSessionStart]).
Proof. intros H. unfold StartSession_record. rewrite H. reflexivity. Qed.

(** The end of every run, from the locals after the attempt. *)
Lemma StartSession_record_closing sm pf request :
  snd (StartSession_record (fst (StartSession_attempt sm pf request)))
  = closing_calls (fst (StartSession_run sm pf request))
  /\ l_evt (fst (StartSession_run sm pf request))
     = match l_ms (fst (StartSession_attempt sm pf request)) with
       | Some handle =>
           set_concurrent_session_count
             (set_absl_status
                (l_evt (fst (StartSession_attempt sm pf request)))
                (code (l_status (fst (StartSession_attempt sm pf request)))))
             (GetSessionCount handle)
       | None =>
           set_absl_status
             (l_evt (fst (StartSession_attempt sm pf request)))
             (code (l_status (fst (StartSession_attempt sm pf request))))
       end.
Proof.
  rewrite StartSession_run_eq. unfold closing_calls.
  cbn [fst l_ms l_ids l_evt].
  pose proof (StartSession_attempt_handle_id sm pf request) as Hid.
  destruct (l_ms (fst (StartSession_attempt sm pf request))) as [handle|]
    eqn:Hms.
  - rewrite StartSession_record_result by (apply Hid; discriminate).
    rewrite Hms. split; reflexivity.
  - rewrite (StartSession_record_no_handle _ Hms). split; reflexivity.
Qed.

Lemma StartSession_registry_reached sm pf request ids :
  ParseInstanceName (gamelet_name request) (mkInstanceOut "" "" "")
    = (true, ids) ->
  ok (InitSsh_status pf (instance_id ids) (project_id ids)
                     (organization_id ids) "" 0%Z) = true ->
  filter is_registry_start (snd (StartSession sm pf request))
  = [Call_SessionManagerStartSession
       (instance_id ids) (project_id ids) (organization_id ids)
       (InitSsh_instance_ip pf (instance_id ids) (project_id ids)
                            (organization_id ids) "" 0%Z)
       (InitSsh_instance_port pf (instance_id ids) (project_id ids)
                              (organization_id ids) "" 0%Z)
       (workstation_directory request)]
  /\ fst (StartSession sm pf request)
     = ToGrpcStatus (fst (fst (registry_answer sm pf request ids)))
  /\ l_ms (fst (StartSession_run sm pf request))
     = snd (fst (registry_answer sm pf request ids))
  /\ evt_status (l_evt (fst (StartSession_run sm pf request)))
     = snd (registry_answer sm pf request ids).
Proof.
  intros E Hok.
  destruct (StartSession_attempt_registry sm pf request ids E Hok)
    as (Hst & Hms & Hev).
  destruct (StartSession_attempt_parsed sm pf request ids E) as (_ & _ & Ht).
  destruct (StartSession_record_closing sm pf request) as [_ Hevt].
  destruct (StartSession_record_sink (fst (StartSession_attempt sm pf request))
              (StartSession_attempt_handle_id sm pf request))
    as (_ & _ & Hreg & _).
  rewrite Hevt. rewrite StartSession_of_run, StartSession_run_eq.
  cbn [fst snd l_status l_ms].
  rewrite filter_app, Hreg, (Ht Hok), filter_app,
    InitSsh_trace_no_registry_start, Hst, Hms.
  split; [reflexivity|]. split; [reflexivity|]. split; [reflexivity|].
  destruct (snd (fst (registry_answer sm pf request ids))); exact Hev.
Qed.

(** X15. When name and address resolve, the registry is asked once, for
    the parsed ids, the resolved address and port and the request's
    workstation directory; its status is the status of the request, and
    its handle and session-start status are the ones the telemetry uses. *)
Theorem StartSession_registry_pass_through sm pf request ids :
  ParseInstanceName (gamelet_name request) (mkInstanceOut "" "" "")
    = (true, ids) ->
  ok (InitSsh_status pf (instance_id ids) (project_id ids)
                     (organization_id ids) "" 0%Z) = true ->
  filter is_registry_start (snd (StartSession sm pf request))
  = [Call_SessionManagerStartSession
       (instance_id ids) (project_id ids) (organization_id ids)
       (InitSsh_instance_ip pf (instance_id ids) (project_id ids)
                            (organization_id ids) "" 0%Z)
       (InitSsh_instance_port pf (instance_id ids) (project_id ids)
                              (organization_id ids) "" 0%Z)
       (workstation_directory request)]
  /\ fst (StartSession sm pf request)
     = ToGrpcStatus (fst (fst (registry_answer sm pf request ids)))
  /\ l_ms (fst (StartSession_run sm pf request))
     = snd (fst (registry_answer sm pf request ids))
  /\ evt_status (l_evt (fst (StartSession_run sm pf request)))
     = snd (registry_answer sm pf request ids).
Proof.
  intros E Hok.
  destruct (StartSession_attempt_registry sm pf request ids E Hok)
    as (Hst & Hms & Hev).
  destruct (StartSession_attempt_parsed sm pf request ids E) as (_ & _ & Ht).
  destruct (StartSession_record_closing sm pf request) as [_ Hevt].
  destruct (StartSession_record_sink (fst (StartSession_attempt sm pf request))
              (StartSession_attempt_handle_id sm pf request))
    as (_ & _ & Hreg & _).
  rewrite Hevt. rewrite StartSession_of_run, StartSession_run_eq.
  cbn [fst snd l_status l_ms].
  rewrite filter_app, Hreg, (Ht Hok), filter_app,
    InitSsh_trace_no_registry_start, Hst, Hms.
  split; [reflexivity|]. split; [reflexivity|]. split; [reflexivity|].
  destruct (snd (fst (registry_answer sm pf request ids))); exact Hev.
Qed.

(** X16. [StartSession] ends with an OK status exactly when the name
    parses, the address resolves and the registry answers OK. *)
Theorem StartSession_ok_exactly_when sm pf request :
  ok (l_status (fst (StartSession_run sm pf request))) = true <->
  exists ids,
    ParseInstanceName (gamelet_name request) (mkInstanceOut "" "" "")
      = (true, ids)
    /\ ok (InitSsh_status pf (instance_id ids) (project_id ids)
                          (organization_id ids) "" 0%Z) = true
    /\ ok (fst (fst (registry_answer sm pf request ids))) = true.
Proof.
  rewrite StartSession_run_eq. cbn [fst l_status].
  destruct (ParseInstanceName (gamelet_name request) (mkInstanceOut "" "" ""))
    as [[|] ids] eqn:E.
  - destruct (StartSession_attempt_parsed sm pf request ids E)
      as (_ & Hfail & _).
    destruct (ok (InitSsh_status pf (instance_id ids) (project_id ids)
                                 (organization_id ids) "" 0%Z)) eqn:Hok.
    + destruct (StartSession_attempt_registry sm pf request ids E Hok)
        as (-> & _).
      split.
      * intros H. exists ids. repeat split; assumption.
      * intros (ids' & [= <-] & _ & H). exact H.
    + destruct (Hfail eq_refl) as (_ & _ & ->). rewrite Hok.
      split; [discriminate|].
      intros (ids' & [= <-] & H & _). congruence.
  - destruct (StartSession_attempt_parse_failure sm pf request)
      as (_ & _ & _ & ->); [rewrite E; reflexivity|].
    split; [discriminate|]. intros (ids' & H & _). discriminate.
Qed.

(** X17. The event a sink receives is filled from the request and the
    run: its origin is the converted origin of the request, its project
    and organization ids are the parsed ones (empty when the name did not
    parse), and its concurrent session count is the count the handle
    reports, set exactly when there is a handle. *)
Theorem StartSession_event_fields sm pf request :
  evt_origin (l_evt (fst (StartSession_run sm pf request)))
    = ConvertOrigin (origin request)
  /\ evt_project_id (l_evt (fst (StartSession_run sm pf request)))
     = project_id (l_ids (fst (StartSession_run sm pf request)))
  /\ evt_organization_id (l_evt (fst (StartSession_run sm pf request)))
     = organization_id (l_ids (fst (StartSession_run sm pf request)))
  /\ evt_concurrent_session_count (l_evt (fst (StartSession_run sm pf request)))
     = option_map GetSessionCount (l_ms (fst (StartSession_run sm pf request)))
  /\ (fst (ParseInstanceName (gamelet_name request) (mkInstanceOut "" "" ""))
        = false ->
      l_ids (fst (StartSession_run sm pf request)) = mkInstanceOut "" "" "").
Proof.
  destruct (StartSession_record_closing sm pf request) as [_ Hevt].
  destruct (StartSession_attempt_event sm pf request) as (Ho & Hp & Hg).
  rewrite Hevt. rewrite StartSession_run_eq. cbn [fst l_ids l_ms].
  assert (Hcount :
            evt_concurrent_session_count
              (l_evt (fst (StartSession_attempt sm pf request))) = None).
  { unfold StartSession_attempt, bind, call, ret.
    destruct (ParseInstanceName _ _) as [[|] ids]; cbn [negb];
      [|reflexivity].
    destruct (InitSsh pf _ _ _ "" 0%Z) as [[[status ip] port] t].
    destruct (ok status); [|reflexivity].
    destruct (sm _ _ _ _ _ _ _ _) as [[st ms] ss]. reflexivity. }
  destruct (l_ms (fst (StartSession_attempt sm pf request))) as [handle|];
    cbn -[StartSession_attempt].
  - rewrite Ho, Hp, Hg. repeat split.
    intros H. apply (StartSession_attempt_parse_failure sm pf request H).
  - rewrite Ho, Hp, Hg, Hcount. repeat split.
    intros H. apply (StartSession_attempt_parse_failure sm pf request H).
Qed.

Lemma StartSession_attempt_calls sm pf request c :
  In c (snd (StartSession_attempt sm pf request)) ->
  is_process c || is_registry_start c = true.
Proof.
  destruct (ParseInstanceName (gamelet_name request) (mkInstanceOut "" "" ""))
    as [[|] ids] eqn:E.
  - destruct (StartSession_attempt_parsed sm pf request ids E)
      as (_ & Hfail & Hok).
    destruct (ok (InitSsh_status pf (instance_id ids) (project_id ids)
                                 (organization_id ids) "" 0%Z)).
    + rewrite (Hok eq_refl). intros H. apply in_app_or in H.
      destruct H as [H|[<-|[]]]; [|reflexivity].
      apply InitSsh_trace_process in H. rewrite H. reflexivity.
    + destruct (Hfail eq_refl) as (-> & _). intros H.
      apply InitSsh_trace_process in H. rewrite H. reflexivity.
  - destruct (StartSession_attempt_parse_failure sm pf request) as (-> & _);
      [rewrite E; reflexivity|].
    intros [].
Qed.

(** X18. Telemetry comes last.  Every run ends with the sink call; when
    there is a registry handle the sink call is preceded by one
    [GetSessionCount] and one [HasSessionForInstance] for the parsed
    instance id, and without a handle the handle is never asked.
    Everything before are calls on the process or the registry's start. *)
Theorem StartSession_telemetry_last sm pf request :
  exists before,
    snd (StartSession sm pf request)
    = (before ++ closing_calls (fst (StartSession_run sm pf request)))%list
    /\ forall c, In c before -> is_process c || is_registry_start c = true.
Proof.
  exists (snd (StartSession_attempt sm pf request)). split.
  - destruct (StartSession_record_closing sm pf request) as [<- _].
    rewrite StartSession_of_run, StartSession_run_eq. reflexivity.
  - apply StartSession_attempt_calls.
Qed.


Lemma ssh_init_command_all_flags i p o :
  Str.empty p = false -> Str.empty o = false ->
  ssh_init_start_info i p o =
    mkStartInfo
      (ggp_path ++ " ssh init --instance " ++ Quoted i
       ++ " --project " ++ Quoted p ++ " --organization " ++ Quoted o)
      "ggp ssh init" true.
Proof.
  intros Hp Ho. unfold ssh_init_start_info. rewrite Hp, Ho. cbn [negb].
  rewrite !append_assoc_string. reflexivity.
Qed.

(** X19. Whenever the name parses, [StartSession] creates the process for
    a command that carries all three quoted ids of the name: ggp ssh init
    with the instance, the project and the organization option, in this
    order, and starts it; no option is ever left out on this path. *)
Theorem StartSession_command_has_all_ids sm pf request ids :
  ParseInstanceName (gamelet_name request) (mkInstanceOut "" "" "")
    = (true, ids) ->
  exists rest,
    snd (StartSession sm pf request) =
      Call_ProcessCreate
        (mkStartInfo
           (ggp_path ++ " ssh init --instance " ++ Quoted (instance_id ids)
            ++ " --project " ++ Quoted (project_id ids)
            ++ " --organization " ++ Quoted (organization_id ids))
           "ggp ssh init" true)
      :: Call_ProcessStart :: rest.
Proof.
  intros E.
  assert (Hne : Str.empty (project_id ids) = false
                /\ Str.empty (organization_id ids) = false).
  { revert E. rewrite ParseInstanceName_parse. unfold Spec.parse.
    destruct (Spec.scope_of _) as [scope|] eqn:Es; [|discriminate].
    intros [= <-]. apply scope_of_Some in Es.
    destruct Es as (s1 & s3 & s5 & s7 & s8 & s9 & _ & H1 & H3 & _ & _ & _ & _
                    & ->).
    cbn. split; apply empty_false_iff; assumption. }
  destruct Hne as [Hp Ho].
  rewrite StartSession_of_run, StartSession_run_eq. cbn [snd].
  destruct (StartSession_attempt_parsed sm pf request ids E)
    as (_ & Hfail & Hok).
  pose proof (InitSsh_trace_shape pf (instance_id ids) (project_id ids)
                (organization_id ids) "" 0%Z) as Ht.
  rewrite (ssh_init_command_all_flags _ _ _ Hp Ho) in Ht.
  assert (Hhead : exists more,
             snd (InitSsh pf (instance_id ids) (project_id ids)
                          (organization_id ids) "" 0%Z)
             = Call_ProcessCreate
                 (mkStartInfo
                    (ggp_path ++ " ssh init --instance "
                     ++ Quoted (instance_id ids)
                     ++ " --project " ++ Quoted (project_id ids)
                     ++ " --organization " ++ Quoted (organization_id ids))
                    "ggp ssh init" true)
               :: Call_ProcessStart :: more).
  { rewrite Ht. unfold calls_reached, process_calls.
    destruct (negb (ok (Start _))); [eexists; reflexivity|].
    destruct (negb (ok (RunUntilExit _))); eexists; reflexivity. }
  destruct Hhead as [more Hm].
  destruct (ok (InitSsh_status pf (instance_id ids) (project_id ids)
                               (organization_id ids) "" 0%Z)).
  - rewrite (Hok eq_refl), Hm. eexists. reflexivity.
  - destruct (Hfail eq_refl) as (-> & _). rewrite Hm. eexists. reflexivity.
Qed.

(** X20. End to end.  For a name built from the template and a tool that
    starts, exits with code 0 and prints a Host line and a Port line whose
    value begins with the digits of a number from 1 to 65535, the registry
    is asked once, for instance A/B/C, the project and the organization of
    the name, the printed host, that number as the port and the request's
    workstation directory, and the request ends with the registry's
    status. *)
Theorem StartSession_end_to_end sm pf request org proj pool a b c
    host digits rest :
  (forall s, In s [org; proj; pool; a; b; c] ->
             s <> "" /\ Spec.contains "/" s = false) ->
  gamelet_name request
  = "organizations/" ++ org ++ "/projects/" ++ proj ++ "/pools/" ++ pool
    ++ "/gamelets/" ++ a ++ "/" ++ b ++ "/" ++ c ->
  ok (Start (ssh_process pf (a ++ "/" ++ b ++ "/" ++ c) proj org)) = true ->
  ok (RunUntilExit (ssh_process pf (a ++ "/" ++ b ++ "/" ++ c) proj org))
    = true ->
  ExitCode (ssh_process pf (a ++ "/" ++ b ++ "/" ++ c) proj org) = 0%N ->
  Spec.extract
    (captured_output (ssh_process pf (a ++ "/" ++ b ++ "/" ++ c) proj org))
    "Host" = Some host ->
  Spec.extract
    (captured_output (ssh_process pf (a ++ "/" ++ b ++ "/" ++ c) proj org))
    "Port" = Some (digits ++ rest) ->
  digits <> "" -> Spec.all_digits digits = true ->
  Spec.no_leading_digit rest = true ->
  (1 <= Spec.decimal digits <= 65535)%Z ->
  filter is_registry_start (snd (StartSession sm pf request))
  = [Call_SessionManagerStartSession
       (a ++ "/" ++ b ++ "/" ++ c) proj org host (Spec.decimal digits)
       (workstation_directory request)]
  /\ fst (StartSession sm pf request)
     = ToGrpcStatus
         (fst (fst (sm (a ++ "/" ++ b ++ "/" ++ c) proj org host
                       (Spec.decimal digits) (workstation_directory request)
                       None SessionStartStatus_kOk))).
Proof.
  intros Hids Hname Hs Hr He Hh Hp Hne Hd Hnd Hrange.
  pose proof (ParseInstanceName_template org proj pool a b c
                (mkInstanceOut "" "" "") Hids) as E.
  change (Spec.join "/" ["organizations"; org; "projects"; proj; "pools";
                         pool; "gamelets"; a; b; c])
    with ("organizations/" ++ org ++ "/projects/" ++ proj ++ "/pools/" ++ pool
          ++ "/gamelets/" ++ a ++ "/" ++ b ++ "/" ++ c) in E.
  rewrite <- Hname in E.
  assert (Hres : fst (InitSsh pf (a ++ "/" ++ b ++ "/" ++ c) proj org "" 0%Z)
                 = (OkStatus, host, Spec.decimal digits)).
  { rewrite (InitSsh_digit_prefix_int pf _ _ _ "" 0%Z host digits rest)
      by (assumption || (unfold Libc.INT_MAX; lia)).
    unfold Libc.to_uint16. rewrite Z.mod_small by lia. reflexivity. }
  assert (Hok : ok (InitSsh_status pf (a ++ "/" ++ b ++ "/" ++ c) proj org
                                   "" 0%Z) = true)
    by (unfold InitSsh_status; rewrite Hres; reflexivity).
  destruct (StartSession_registry_reached sm pf request _ E Hok)
    as (Hreg & Hret & _).
  unfold registry_answer, InitSsh_instance_ip, InitSsh_instance_port in *.
  cbn [instance_id project_id organization_id] in *.
  rewrite Hres in Hreg, Hret. cbn [fst snd] in Hreg, Hret.
  split; assumption.
Qed.

(** X21. A name that does not parse costs one call: the event goes to the
    global sink, tagged InvalidArgument, with empty ids and no session
    count, and nothing else is called.  The status names the offending
    name. *)
Theorem StartSession_malformed_name sm pf request :
  fst (ParseInstanceName (gamelet_name request) (mkInstanceOut "" "" ""))
    = false ->
  snd (StartSession sm pf request)
  = [Call_RecordEvent
       (mkEvent "" "" kInvalidArgument SessionStartStatus_kOk
                (ConvertOrigin (origin request)) None)
       kSessionStart]
  /\ fst (StartSession sm pf request)
     = ToGrpcStatus
         (InvalidArgumentError
            ("Failed to parse instance name '" ++ gamelet_name request ++ "'")).
Proof.
  intros H.
  pose proof (ParseInstanceName_false_keeps_out (gamelet_name request)
                (mkInstanceOut "" "" "") H) as Hkeep.
  unfold StartSession, StartSession_run, StartSession_attempt,
    StartSession_record, bind, call, ret.
  destruct (ParseInstanceName _ _) as [parsed ids]. cbn in H, Hkeep.
  subst parsed ids. cbn. split; reflexivity.
Qed.

(** X22. A failed address resolution is recorded at the global sink, never
    at a registry handle: after the calls of [InitSsh] the only call is the
    global sink's, with the parsed project and organization ids and the
    code of the resolver's status, which is the status of the request. *)
Theorem StartSession_resolver_failure sm pf request ids :
  ParseInstanceName (gamelet_name request) (mkInstanceOut "" "" "")
    = (true, ids) ->
  ok (InitSsh_status pf (instance_id ids) (project_id ids)
                     (organization_id ids) "" 0%Z) = false ->
  snd (StartSession sm pf request)
  = (snd (InitSsh pf (instance_id ids) (project_id ids)
                  (organization_id ids) "" 0%Z)
     ++ [Call_RecordEvent
           (mkEvent (project_id ids) (organization_id ids)
                    (code (InitSsh_status pf (instance_id ids) (project_id ids)
                                          (organization_id ids) "" 0%Z))
                    SessionStartStatus_kOk
                    (ConvertOrigin (origin request)) None)
           kSessionStart])%list
  /\ fst (StartSession sm pf request)
     = ToGrpcStatus (InitSsh_status pf (instance_id ids) (project_id ids)
                                    (organization_id ids) "" 0%Z).
Proof.
  intros E. unfold StartSession, StartSession_run, StartSession_attempt,
    StartSession_record, InitSsh_status, bind, call, ret.
  rewrite E. cbn [negb].
  destruct (InitSsh pf _ _ _ "" 0%Z) as [[[status ip] port] t].
  cbn [fst snd]. intros ->. cbn.
  rewrite !List.app_nil_r. split; reflexivity.
Qed.

End Service.

(** ** More about ParseInstanceName *)

Ltac in_written_list := first [ left; reflexivity | right; in_written_list ].

Lemma StrSplit_append s t d :
  Str.StrSplit (s ++ String d t) d
  = (Str.StrSplit s d ++ Str.StrSplit t d)%list.
Proof.
  induction s as [|c s IH]; cbn [String.append Str.StrSplit].
  - rewrite Ascii.eqb_refl. reflexivity.
  - rewrite IH. destruct (Ascii.eqb c d); [reflexivity|].
    pose proof (StrSplit_not_nil s d) as Hne.
    destruct (Str.StrSplit s d); [congruence|reflexivity].
Qed.

Lemma parse_no_empty_segment name scope :
  Spec.parse name = Some scope -> ~ In "" (Str.StrSplit name "/").
Proof.
  unfold Spec.parse. intros H. apply scope_of_Some in H.
  destruct H as (s1 & s3 & s5 & s7 & s8 & s9 & -> & H1 & H3 & H5 & H7 & H8
                 & H9 & _).
  simpl. intros [H|[H|[H|[H|[H|[H|[H|[H|[H|[H|[]]]]]]]]]]];
    congruence || discriminate.
Qed.

Lemma ParseInstanceName_fails_on_empty_segment name out :
  In "" (Str.StrSplit name "/") -> fst (ParseInstanceName name out) = false.
Proof.
  intros H. rewrite ParseInstanceName_parse.
  destruct (Spec.parse name) as [scope|] eqn:E; [|reflexivity].
  destruct (parse_no_empty_segment _ _ E H).
Qed.

(** X1. A name that parses is the template filled with the returned ids:
    it reads organizations/ORG/projects/PROJECT/pools/POOL/gamelets/INSTANCE
    with ORG, PROJECT and INSTANCE the three outputs and POOL some non-empty
    text without a slash.  Nothing of the name but the pool is lost. *)
Theorem ParseInstanceName_rebuild name out ids :
  ParseInstanceName name out = (true, ids) ->
  exists pool,
    pool <> "" /\ Spec.contains "/" pool = false
    /\ name = "organizations/" ++ organization_id ids
              ++ "/projects/" ++ project_id ids
              ++ "/pools/" ++ pool
              ++ "/gamelets/" ++ instance_id ids.
Proof.
  rewrite ParseInstanceName_parse. unfold Spec.parse.
  destruct (Spec.scope_of _) as [scope|] eqn:E; [|discriminate].
  intros [= <-]. apply scope_of_Some in E.
  destruct E as (s1 & s3 & s5 & s7 & s8 & s9 & E & _ & _ & H5 & _ & _ & _ & ->).
  exists s5. split; [exact H5|]. split.
  - apply (StrSplit_pieces name "/"). rewrite E. in_written_list.
  - rewrite <- (StrSplit_join name "/") at 1. rewrite E. reflexivity.
Qed.

(** X2. Every name built from the template parses back to its parts: for
    non-empty ids without a slash, the name
    organizations/ORG/projects/PROJECT/pools/POOL/gamelets/A/B/C gives
    organization ORG, project PROJECT and instance A/B/C. *)
Theorem ParseInstanceName_of_template org proj pool a b c out :
  (forall s, In s [org; proj; pool; a; b; c] ->
             s <> "" /\ Spec.contains "/" s = false) ->
  ParseInstanceName
    ("organizations/" ++ org ++ "/projects/" ++ proj ++ "/pools/" ++ pool
     ++ "/gamelets/" ++ a ++ "/" ++ b ++ "/" ++ c) out
  = (true, mkInstanceOut (a ++ "/" ++ b ++ "/" ++ c) proj org).
Proof.
  intros H. rewrite ParseInstanceName_parse. unfold Spec.parse.
  change ("organizations/" ++ org ++ "/projects/" ++ proj ++ "/pools/" ++ pool
          ++ "/gamelets/" ++ a ++ "/" ++ b ++ "/" ++ c)
    with (Spec.join "/" ["organizations"; org; "projects"; proj; "pools";
                         pool; "gamelets"; a; b; c]).
  rewrite StrSplit_of_join.
  - assert (E : Spec.scope_of
                  ["organizations"; org; "projects"; proj; "pools"; pool;
                   "gamelets"; a; b; c]
                = Some (mkInstanceOut (a ++ "/" ++ b ++ "/" ++ c) proj org)).
    { apply scope_of_Some. exists org, proj, pool, a, b, c.
      repeat split; apply H; in_written_list. }
    rewrite E. reflexivity.
  - discriminate.
  - intros p Hp. simpl in Hp.
    repeat (destruct Hp as [<-|Hp];
            [first [reflexivity | apply H; in_written_list]|]).
    destruct Hp.
Qed.

(** X3. The ids a successful parse returns are well formed: organization
    and project are non-empty and hold no slash, and the instance id splits
    on '/' into exactly three non-empty segments. *)
Theorem ParseInstanceName_ids_well_formed name out ids :
  ParseInstanceName name out = (true, ids) ->
  (organization_id ids <> "" /\ Spec.contains "/" (organization_id ids) = false)
  /\ (project_id ids <> "" /\ Spec.contains "/" (project_id ids) = false)
  /\ exists a b c,
       Str.StrSplit (instance_id ids) "/" = [a; b; c]
       /\ a <> "" /\ b <> "" /\ c <> "".
Proof.
  rewrite ParseInstanceName_parse. unfold Spec.parse.
  destruct (Spec.scope_of _) as [scope|] eqn:E; [|discriminate].
  intros [= <-]. apply scope_of_Some in E.
  destruct E as (s1 & s3 & s5 & s7 & s8 & s9 & E & H1 & H3 & _ & H7 & H8 & H9
                 & ->).
  assert (Hno : forall s, In s (Str.StrSplit name "/") ->
                          Spec.contains "/" s = false)
    by (intros s; apply StrSplit_pieces).
  rewrite E in Hno. cbn [instance_id project_id organization_id].
  split; [split; [exact H1|apply Hno; in_written_list]|].
  split; [split; [exact H3|apply Hno; in_written_list]|].
  exists s7, s8, s9. split; [|repeat split; assumption].
  change (s7 ++ "/" ++ s8 ++ "/" ++ s9) with (Spec.join "/" [s7; s8; s9]).
  apply StrSplit_of_join; [discriminate|].
  intros p Hp. apply Hno. simpl in Hp.
  destruct Hp as [<-|[<-|[<-|[]]]]; in_written_list.
Qed.

(** X4. A name with an empty segment never parses: a leading slash, a
    trailing slash and a doubled slash each make [ParseInstanceName] fail,
    wherever they stand. *)
Theorem ParseInstanceName_rejects_empty_segments :
  (forall rest out, fst (ParseInstanceName ("/" ++ rest) out) = false)
  /\ (forall front out, fst (ParseInstanceName (front ++ "/") out) = false)
  /\ (forall front rest out,
        fst (ParseInstanceName (front ++ "//" ++ rest) out) = false).
Proof.
  repeat apply conj.
  - intros rest out. apply ParseInstanceName_fails_on_empty_segment.
    change ("/" ++ rest) with ("" ++ String "/" rest).
    rewrite StrSplit_append. left. reflexivity.
  - intros front out. apply ParseInstanceName_fails_on_empty_segment.
    change (front ++ "/") with (front ++ String "/" "").
    rewrite StrSplit_append. apply in_or_app. right. left. reflexivity.
  - intros front rest out. apply ParseInstanceName_fails_on_empty_segment.
    change (front ++ "//" ++ rest)
      with (front ++ String "/" ("" ++ String "/" rest)).
    rewrite !StrSplit_append. apply in_or_app. right.
    left. reflexivity.
Qed.

(** ** More about ParseValue *)

Lemma contains_append d a b :
  Spec.contains d (a ++ b) = Spec.contains d a || Spec.contains d b.
Proof.
  induction a as [|c a IH]; simpl; [reflexivity|].
  rewrite IH. apply orb_assoc.
Qed.

Lemma lines_no_LF text l :
  In l (Spec.lines text) -> Spec.contains Str.LF l = false.
Proof.
  revert l. induction text as [|c text IH]; intros l; [intros []|].
  cbn [Spec.lines]. destruct (Ascii.eqb c Str.LF) eqn:Ec.
  - intros [<-|H]; [reflexivity|apply IH, H].
  - destruct (Spec.lines text) as [|q qs].
    + intros [<-|[]]. simpl. rewrite Ec. reflexivity.
    + intros [<-|H].
      * simpl. rewrite Ec. apply IH. left. reflexivity.
      * apply IH. right. exact H.
Qed.

Lemma lines_nil text : Spec.lines text = [] -> text = "".
Proof.
  destruct text as [|c text]; [reflexivity|].
  cbn [Spec.lines]. destruct (Ascii.eqb c Str.LF); [discriminate|].
  destruct (Spec.lines text); discriminate.
Qed.

Lemma lines_first_is_prefix text l ls :
  Spec.lines text = l :: ls -> exists rest, text = l ++ rest.
Proof.
  revert l ls. induction text as [|c text IH]; intros l ls; [discriminate|].
  cbn [Spec.lines]. destruct (Ascii.eqb c Str.LF).
  - intros [= <- _]. exists (String c text). reflexivity.
  - destruct (Spec.lines text) as [|q qs] eqn:E.
    + intros [= <- _]. apply lines_nil in E. subst text. exists "".
      reflexivity.
    + intros [= <- _]. destruct (IH q qs eq_refl) as [rest ->].
      exists rest. reflexivity.
Qed.

Lemma lines_part_of_text text l :
  In l (Spec.lines text) -> exists front rest, text = front ++ l ++ rest.
Proof.
  revert l. induction text as [|c text IH]; intros l; [intros []|].
  cbn [Spec.lines]. destruct (Ascii.eqb c Str.LF).
  - intros [<-|H].
    + exists "", (String c text). reflexivity.
    + destruct (IH l H) as (front & rest & ->).
      exists (String c front), rest. reflexivity.
  - destruct (Spec.lines text) as [|q qs] eqn:E.
    + intros [<-|[]]. apply lines_nil in E. subst text.
      exists "", "". reflexivity.
    + intros [<-|H].
      * destruct (lines_first_is_prefix _ _ _ E) as [rest ->].
        exists "", rest. reflexivity.
      * destruct (IH l (or_intror H)) as (front & rest & ->).
        exists (String c front), rest. reflexivity.
Qed.

Lemma append_drop n s :
  exists front, s = front ++ Spec.drop n s.
Proof.
  revert s. induction n as [|n IH]; intros s; [exists ""; reflexivity|].
  destruct s as [|c s]; [exists ""; reflexivity|].
  destruct (IH s) as [front E]. exists (String c front).
  simpl. rewrite <- E. reflexivity.
Qed.

Lemma ParseValue_found_line data key value v :
  ParseValue data key value = (true, v) ->
  exists line,
    In line (Spec.lines data) /\ Spec.matches key line = true
    /\ v = Spec.strip (Spec.drop (String.length key + 1) line).
Proof.
  rewrite ParseValue_extract. unfold Spec.extract.
  destruct (find _ _) as [line|] eqn:E; [|discriminate].
  intros [= <-]. apply find_some in E. destruct E as [Hin Hm].
  exists line. repeat split; assumption.
Qed.

(** X5. A value [ParseValue] returns is clean: it holds no line feed and
    neither begins nor ends with white space. *)
Theorem ParseValue_value_is_clean data key value v :
  ParseValue data key value = (true, v) ->
  Spec.contains Str.LF v = false
  /\ Spec.strip_leading v = v
  /\ Spec.strip_trailing v = v.
Proof.
  intros H. apply ParseValue_found_line in H.
  destruct H as (line & Hin & _ & ->).
  split; [|apply strip_no_outer_space].
  apply lines_no_LF in Hin.
  destruct (append_drop (String.length key + 1) line) as [front Ef].
  destruct (strip_decompose (Spec.drop (String.length key + 1) line))
    as (l & r & Es & _ & _).
  rewrite Ef, Es, !contains_append in Hin.
  apply orb_false_iff in Hin. destruct Hin as [_ Hin].
  apply orb_false_iff in Hin. destruct Hin as [_ Hin].
  apply orb_false_iff in Hin. destruct Hin as [Hin _]. exact Hin.
Qed.

(** X6. A value [ParseValue] returns is copied out of the text: it is a
    contiguous part of the data, standing after the key and its colon. *)
Theorem ParseValue_value_from_text data key value v :
  ParseValue data key value = (true, v) ->
  exists front rest, data = front ++ (key ++ ":") ++ rest
                     /\ exists l r, rest = l ++ v ++ r
                                    /\ Spec.all_space l = true.
Proof.
  intros H. apply ParseValue_found_line in H.
  destruct H as (line & Hin & Hm & ->).
  apply lines_part_of_text in Hin. destruct Hin as (front & rest & ->).
  apply matches_starts_with in Hm. destruct Hm as [after ->].
  replace (String.length key + 1)%nat with (String.length (key ++ ":"))
    by (rewrite length_append; reflexivity).
  rewrite drop_append.
  destruct (strip_decompose after) as (l & r & Es & Hl & _).
  exists front, (after ++ rest). split.
  - rewrite !append_assoc_string. reflexivity.
  - exists l, (r ++ rest). split; [|exact Hl].
    rewrite Es at 1. rewrite !append_assoc_string. reflexivity.
Qed.

Lemma lines_terminated text :
  exists extra, (extra = [] \/ extra = [""])
                /\ Spec.lines (text ++ String Str.LF "")
                   = (Spec.lines text ++ extra)%list.
Proof.
  induction text as [|c text IH].
  - exists [""]. split; [right; reflexivity|reflexivity].
  - destruct IH as (extra & He & E).
    cbn [String.append Spec.lines]. rewrite E.
    destruct (Ascii.eqb c Str.LF).
    + exists extra. split; [exact He|reflexivity].
    + destruct (Spec.lines text) as [|q qs] eqn:El.
      * apply lines_nil in El. subst text. simpl in E.
        exists []. split; [left; reflexivity|].
        destruct He as [->| ->]; simpl in E; [discriminate|reflexivity].
      * exists extra. split; [exact He|reflexivity].
Qed.

Lemma lines_append_text front rest :
  Spec.lines (front ++ String Str.LF rest)
  = (Spec.lines (front ++ String Str.LF "") ++ Spec.lines rest)%list.
Proof.
  induction front as [|c front IH]; [reflexivity|].
  cbn [String.append Spec.lines]. rewrite IH.
  destruct (Ascii.eqb c Str.LF); [reflexivity|].
  destruct (Spec.lines (front ++ String Str.LF "")) as [|q qs] eqn:E;
    [|reflexivity].
  apply lines_nil in E. destruct front; discriminate.
Qed.

Lemma matches_empty_line key : Spec.matches key "" = false.
Proof. unfold Spec.matches. destruct key; reflexivity. Qed.

Lemma find_append {A} (f : A -> bool) xs ys :
  find f (xs ++ ys)%list =
    match find f xs with
    | Some x => Some x
    | None => find f ys
    end.
Proof.
  induction xs as [|x xs IH]; [reflexivity|].
  simpl. destruct (f x); [reflexivity|exact IH].
Qed.

(** X7. [ParseValue] over two texts joined by a line feed is the search in
    the first text, and only when the key is not found there the search in
    the second. *)
Theorem ParseValue_joined_texts front rest key value :
  ParseValue (front ++ LF_string ++ rest) key value =
    if fst (ParseValue front key value)
    then ParseValue front key value
    else ParseValue rest key value.
Proof.
  rewrite !ParseValue_extract. unfold Spec.extract.
  change (front ++ LF_string ++ rest) with (front ++ String Str.LF rest).
  rewrite lines_append_text.
  destruct (lines_terminated front) as (extra & He & ->).
  rewrite !find_append.
  destruct (find (Spec.matches key) (Spec.lines front)) as [line|];
    [reflexivity|].
  assert (Hx : find (Spec.matches key) extra = None).
  { destruct He as [->| ->]; [reflexivity|].
    simpl. rewrite matches_empty_line. reflexivity. }
  rewrite Hx. cbn [fst].
  destruct (find (Spec.matches key) (Spec.lines rest)); reflexivity.
Qed.

(** X8. A key that holds a line feed is never found, whatever the text:
    no line can start with it. *)
Theorem ParseValue_key_with_line_feed data key value :
  Spec.contains Str.LF key = true ->
  ParseValue data key value = (false, value).
Proof.
  intros Hk. rewrite ParseValue_extract. unfold Spec.extract.
  destruct (find _ _) as [line|] eqn:E; [|reflexivity].
  apply find_some in E. destruct E as [Hin Hm].
  apply lines_no_LF in Hin. apply matches_starts_with in Hm.
  destruct Hm as [after ->].
  rewrite !contains_append, Hk in Hin. discriminate.
Qed.

(** ** The command line of the provisioning tool *)

Lemma DQUOTE_is_special :
  Ascii.eqb Str.DQUOTE Str.DQUOTE || Ascii.eqb Str.DQUOTE Str.BACKSLASH = true.
Proof. reflexivity. Qed.

Lemma BACKSLASH_is_special :
  Ascii.eqb Str.BACKSLASH Str.DQUOTE || Ascii.eqb Str.BACKSLASH Str.BACKSLASH
  = true.
Proof. reflexivity. Qed.

Lemma quoted_body_prefix_free s :
  forall t r r',
    quoted_body s ++ String Str.DQUOTE r = quoted_body t ++ String Str.DQUOTE r' ->
    s = t /\ r = r'.
Proof.
  induction s as [|c s IH]; intros [|c' t] r r'; cbn [quoted_body].
  - intros [= ->]. split; reflexivity.
  - destruct (Ascii.eqb c' Str.DQUOTE || Ascii.eqb c' Str.BACKSLASH) eqn:Ec'.
    + intros H. discriminate H.
    + intros H. injection H as <- _.
      rewrite DQUOTE_is_special in Ec'. discriminate.
  - destruct (Ascii.eqb c Str.DQUOTE || Ascii.eqb c Str.BACKSLASH) eqn:Ec.
    + intros H. discriminate H.
    + intros H. injection H as -> _.
      rewrite DQUOTE_is_special in Ec. discriminate.
  - destruct (Ascii.eqb c Str.DQUOTE || Ascii.eqb c Str.BACKSLASH) eqn:Ec;
      destruct (Ascii.eqb c' Str.DQUOTE || Ascii.eqb c' Str.BACKSLASH) eqn:Ec'.
    + intros H. injection H as <- H. apply IH in H.
      destruct H as [-> ->]. split; reflexivity.
    + intros H. injection H as <- _.
      rewrite BACKSLASH_is_special in Ec'. discriminate.
    + intros H. injection H as -> _.
      rewrite BACKSLASH_is_special in Ec. discriminate.
    + intros H. injection H as <- H. apply IH in H.
      destruct H as [-> ->]. split; reflexivity.
Qed.

Lemma Quoted_append_same s t r r' :
  Quoted s ++ r = Quoted t ++ r' -> s = t /\ r = r'.
Proof.
  unfold Quoted. rewrite !append_assoc_string.
  cbn [String.append]. intros H. injection H as H.
  apply quoted_body_prefix_free in H. exact H.
Qed.

(** X9. A quoted string is self-delimiting: when two texts that each
    begin with a quoted string are equal, the quoted strings are the same
    and so is what follows them.  In particular [Quoted] maps different
    strings to different texts. *)
Theorem Quoted_prefix_free s t r r' :
  Quoted s ++ r = Quoted t ++ r' -> s = t /\ r = r'.
Proof.
  intros H. unfold Quoted in H. rewrite !append_assoc_string in H.
  cbn [String.append] in H. injection H as H.
  exact (quoted_body_prefix_free s t r r' H).
Qed.

Lemma append_cancel_left (a x y : string) : a ++ x = a ++ y -> x = y.
Proof.
  induction a as [|c a IH]; simpl; [auto|].
  intros H. injection H as H. apply IH, H.
Qed.

Lemma append_empty_right (s : string) : s ++ "" = s.
Proof. induction s as [|c s IH]; simpl; congruence. Qed.

Lemma Quoted_same s t : Quoted s = Quoted t -> s = t.
Proof.
  intros H. apply (quoted_body_prefix_free s t "" "").
  unfold Quoted in H. injection H as H. exact H.
Qed.

Lemma empty_true s : Str.empty s = true -> s = "".
Proof. destruct s; [reflexivity|discriminate]. Qed.

(** X10. The command line names its target without ambiguity: two calls of
    [InitSsh] build the same command only when instance id, project id and
    organization id are all the same, whatever characters the ids hold. *)
Theorem ssh_init_command_injective ggp_path i p o i' p' o' :
  command (ssh_init_start_info ggp_path i p o)
  = command (ssh_init_start_info ggp_path i' p' o') ->
  i = i' /\ p = p' /\ o = o'.
Proof.
  unfold ssh_init_start_info. cbn [command].
  set (flag_o := fun o : string =>
                   if negb (Str.empty o)
                   then " --organization " ++ Quoted o else "").
  set (flag_p := fun p : string =>
                   if negb (Str.empty p)
                   then " --project " ++ Quoted p else "").
  assert (E : forall i p o,
             (if negb (Str.empty o)
              then (if negb (Str.empty p)
                    then ((ggp_path ++ " ssh init") ++ " --instance " ++ Quoted i)
                         ++ " --project " ++ Quoted p
                    else (ggp_path ++ " ssh init") ++ " --instance " ++ Quoted i)
                   ++ " --organization " ++ Quoted o
              else (if negb (Str.empty p)
                    then ((ggp_path ++ " ssh init") ++ " --instance " ++ Quoted i)
                         ++ " --project " ++ Quoted p
                    else (ggp_path ++ " ssh init") ++ " --instance " ++ Quoted i))
             = (ggp_path ++ " ssh init --instance ")
               ++ Quoted i ++ flag_p p ++ flag_o o).
  { intros a b c. unfold flag_p, flag_o.
    destruct (Str.empty b), (Str.empty c); cbn [negb];
      rewrite ?append_assoc_string; cbn [String.append];
      rewrite ?append_empty_right; reflexivity. }
  rewrite !E. clear E. intros H.
  apply append_cancel_left, Quoted_append_same in H.
  destruct H as [-> H]. split; [reflexivity|].
  unfold flag_p, flag_o in H.
  destruct (Str.empty p) eqn:Ep, (Str.empty p') eqn:Ep'; cbn [negb] in H.
  - apply empty_true in Ep, Ep'. subst p p'. split; [reflexivity|].
    destruct (Str.empty o) eqn:Eo, (Str.empty o') eqn:Eo'; cbn [negb] in H.
    + apply empty_true in Eo, Eo'. congruence.
    + discriminate H.
    + discriminate H.
    + apply (append_cancel_left " --organization ") in H.
      apply Quoted_same, H.
  - exfalso. destruct (Str.empty o); cbn [negb] in H; discriminate H.
  - exfalso. destruct (Str.empty o'); cbn [negb] in H; discriminate H.
  - rewrite !append_assoc_string in H.
    apply (append_cancel_left " --project "), Quoted_append_same in H.
    destruct H as [-> H]. split; [reflexivity|].
    destruct (Str.empty o) eqn:Eo, (Str.empty o') eqn:Eo'; cbn [negb] in H.
    + apply empty_true in Eo, Eo'. congruence.
    + discriminate H.
    + discriminate H.
    + apply (append_cancel_left " --organization ") in H.
      apply Quoted_same, H.
Qed.

(** ** The theorems at concrete inputs *)

Local Abbreviation demo_InitSsh :=
  (InitSsh nat Examples.MakeStatus Examples.WrapStatus Examples.ggp_path
           Examples.atoi_out_of_range).

Local Abbreviation demo_process :=
  (ssh_process Examples.ggp_path).

Local Abbreviation demo_StartSession :=
  (StartSession nat 0%nat Status Examples.ToGrpcStatus Examples.MakeStatus
                Examples.WrapStatus Examples.ggp_path
                Examples.atoi_out_of_range).

Local Abbreviation demo_StartSession_run :=
  (StartSession_run nat 0%nat Examples.MakeStatus
                    Examples.WrapStatus Examples.ggp_path
                    Examples.atoi_out_of_range).

Lemma ParseInstanceName_ten_segments_witness :
  ParseInstanceName Examples.good_name (mkInstanceOut "" "" "") =
    (true, mkInstanceOut "edge/e-1/abc123" "p1" "o1").
Proof.
  destruct (ParseInstanceName_ten_segments Examples.good_name
              (mkInstanceOut "" "" "")) as [_ H].
  specialize (H "organizations" "o1" "projects" "p1" "pools" "pool1"
                "gamelets" "edge" "e-1" "abc123" eq_refl eq_refl).
  rewrite (surjective_pairing (ParseInstanceName _ _)), H. reflexivity.
Defined.

Lemma ParseInstanceName_failure_writes_nothing_witness :
  fst (ParseInstanceName Examples.short_name (mkInstanceOut "i" "p" "o"))
    = false
  /\ snd (ParseInstanceName Examples.short_name (mkInstanceOut "i" "p" "o"))
     = mkInstanceOut "i" "p" "o".
Proof.
  split; [reflexivity|].
  destruct (ParseInstanceName_failure_writes_nothing Examples.short_name
              (mkInstanceOut "i" "p" "o") eq_refl) as [H _].
  exact H.
Defined.

Lemma ParseValue_first_matching_line_witness :
  ParseValue ("Port: 1" ++ LF_string ++ "Port: 2") "Port" "" = (true, "1").
Proof.
  destruct (ParseValue_first_matching_line
              ("Port: 1" ++ LF_string ++ "Port: 2") "Port" "") as [H _].
  rewrite (H [] " 1" ["Port: 2"] eq_refl); [reflexivity|].
  intros l [].
Defined.

Lemma InitSsh_nonzero_exit_code_witness :
  (forall msg, ok (Examples.MakeStatus msg) = false)
  /\ ok (Start (demo_process
                  (Examples.factory_of
                     (Examples.printing_process
                        (Examples.output_with_port "2222") 3))
                  "edge/e-1/abc123" "p1" "o1")) = true
  /\ fst (demo_InitSsh
            (Examples.factory_of
               (Examples.printing_process (Examples.output_with_port "2222") 3))
            "edge/e-1/abc123" "p1" "o1" "" 0%Z)
     = (Examples.MakeStatus "ggp process exited with code 3", "", 0%Z).
Proof.
  split; [reflexivity|]. split; [reflexivity|].
  destruct (InitSsh_nonzero_exit_code nat Examples.MakeStatus
              Examples.WrapStatus Examples.ggp_path Examples.atoi_out_of_range
              (fun _ => eq_refl)
              (Examples.factory_of
                 (Examples.printing_process (Examples.output_with_port "2222") 3))
              "edge/e-1/abc123" "p1" "o1" "" 0%Z eq_refl eq_refl
              ltac:(discriminate)) as [H _].
  exact H.
Defined.

Lemma InitSsh_non_numeric_port_witness :
  Spec.extract (Examples.output_with_port "abc") "Port" = Some "abc"
  /\ Spec.non_numeric "abc" = true
  /\ fst (demo_InitSsh
            (Examples.factory_of
               (Examples.printing_process (Examples.output_with_port "abc") 0))
            "edge/e-1/abc123" "p1" "o1" "" 0%Z)
     = (Examples.MakeStatus
          ("Failed to parse ssh port from ggp ssh init response"
           ++ LF_string ++ Examples.output_with_port "abc"),
        "1.2.3.4", 0%Z).
Proof.
  split; [reflexivity|]. split; [reflexivity|].
  destruct (InitSsh_non_numeric_port nat Examples.MakeStatus
              Examples.WrapStatus Examples.ggp_path Examples.atoi_out_of_range
              (fun _ => eq_refl)
              (Examples.factory_of
                 (Examples.printing_process (Examples.output_with_port "abc") 0))
              "edge/e-1/abc123" "p1" "o1" "" 0%Z "abc"
              eq_refl eq_refl eq_refl eq_refl eq_refl) as (_ & _ & _ & H).
  exact (H "1.2.3.4" eq_refl).
Defined.

Lemma InitSsh_accepts_digit_prefix_witness :
  Spec.extract (Examples.output_with_port "123abc") "Port"
    = Some ("123" ++ "abc")
  /\ (1 <= Spec.decimal "123" <= 65535)%Z
  /\ fst (demo_InitSsh
            (Examples.factory_of
               (Examples.printing_process
                  (Examples.output_with_port "123abc") 0))
            "edge/e-1/abc123" "p1" "o1" "" 0%Z)
     = (OkStatus, "1.2.3.4", 123%Z).
Proof.
  split; [reflexivity|]. split; [vm_compute; split; discriminate|].
  destruct (InitSsh_accepts_digit_prefix nat Examples.MakeStatus
              Examples.WrapStatus Examples.ggp_path Examples.atoi_out_of_range
              (Examples.factory_of
                 (Examples.printing_process
                    (Examples.output_with_port "123abc") 0))
              "edge/e-1/abc123" "p1" "o1" "" 0%Z "1.2.3.4" "123" "abc"
              eq_refl eq_refl eq_refl eq_refl eq_refl
              ltac:(discriminate) eq_refl eq_refl
              ltac:(vm_compute; split; discriminate)) as [_ H].
  exact H.
Defined.

Lemma InitSsh_outputs_not_atomic_witness :
  ok (InitSsh_status nat Examples.MakeStatus Examples.WrapStatus
        Examples.ggp_path Examples.atoi_out_of_range
        (Examples.factory_of
           (Examples.printing_process (Examples.output_with_port "abc") 0))
        "edge/e-1/abc123" "p1" "o1" "" 0%Z) = false
  /\ InitSsh_instance_ip nat Examples.MakeStatus Examples.WrapStatus
       Examples.ggp_path Examples.atoi_out_of_range
       (Examples.factory_of
          (Examples.printing_process (Examples.output_with_port "abc") 0))
       "edge/e-1/abc123" "p1" "o1" "" 0%Z = "1.2.3.4"
  /\ InitSsh_instance_port nat Examples.MakeStatus Examples.WrapStatus
       Examples.ggp_path Examples.atoi_out_of_range
       (Examples.factory_of
          (Examples.printing_process (Examples.output_with_port "abc") 0))
       "edge/e-1/abc123" "p1" "o1" "" 0%Z = 0%Z.
Proof.
  destruct (InitSsh_outputs_not_atomic nat Examples.MakeStatus
              Examples.WrapStatus Examples.ggp_path Examples.atoi_out_of_range
              (Examples.factory_of
                 (Examples.printing_process (Examples.output_with_port "abc") 0))
              "edge/e-1/abc123" "p1" "o1" "" 0%Z) as (Hport & Hip & _).
  split; [reflexivity|]. split.
  - exact (proj1 (Hip "1.2.3.4" eq_refl eq_refl eq_refl eq_refl eq_refl)).
  - exact (Hport eq_refl).
Defined.

Lemma StartSession_exactly_one_sink_witness :
  filter (is_sink nat)
    (snd (demo_StartSession
            (Examples.registry_returning OkStatus
               (Some (Examples.handle_tracking "edge/e-1/abc123")))
            (Examples.factory_of
               (Examples.printing_process (Examples.output_with_port "2222") 0))
            (Examples.request_for Examples.good_name)))
  = [Call_RecordSessionEvent nat
       (mkEvent nat "p1" "o1" kOk 0%nat kCli (Some 2%Z))
       kSessionStart "edge/e-1/abc123"].
Proof.
  rewrite (StartSession_exactly_one_sink nat 0%nat Status
             Examples.ToGrpcStatus Examples.MakeStatus Examples.WrapStatus
             Examples.ggp_path Examples.atoi_out_of_range).
  reflexivity.
Defined.

Lemma StartSession_short_circuit_witness :
  fst (ParseInstanceName Examples.short_name (mkInstanceOut "" "" "")) = false
  /\ filter (is_process nat)
       (snd (demo_StartSession
               (Examples.registry_returning OkStatus
                  (Some (Examples.handle_tracking "edge/e-1/abc123")))
               (Examples.factory_of
                  (Examples.printing_process
                     (Examples.output_with_port "2222") 0))
               (Examples.request_for Examples.short_name))) = []
  /\ filter (is_registry_start nat)
       (snd (demo_StartSession
               (Examples.registry_returning OkStatus
                  (Some (Examples.handle_tracking "edge/e-1/abc123")))
               (Examples.factory_of
                  (Examples.printing_process
                     (Examples.output_with_port "2222") 0))
               (Examples.request_for Examples.short_name))) = []
  /\ dispatched_events nat
       (snd (demo_StartSession
               (Examples.registry_returning OkStatus
                  (Some (Examples.handle_tracking "edge/e-1/abc123")))
               (Examples.factory_of
                  (Examples.printing_process
                     (Examples.output_with_port "2222") 0))
               (Examples.request_for Examples.short_name)))
     = [mkEvent nat "" "" kInvalidArgument 0%nat kCli None].
Proof.
  destruct (StartSession_short_circuit nat 0%nat Status
              Examples.ToGrpcStatus Examples.MakeStatus Examples.WrapStatus
              Examples.ggp_path Examples.atoi_out_of_range
              (Examples.registry_returning OkStatus
                 (Some (Examples.handle_tracking "edge/e-1/abc123")))
              (Examples.factory_of
                 (Examples.printing_process (Examples.output_with_port "2222") 0))
              (Examples.request_for Examples.short_name))
    as (Hfail & _ & Hev & _).
  destruct (Hfail eq_refl) as (Hp & Hr & _).
  split; [reflexivity|]. split; [exact Hp|]. split; [exact Hr|].
  rewrite Hev. reflexivity.
Defined.

(** ** The further theorems at concrete inputs *)

Lemma ParseInstanceName_rebuild_witness :
  ParseInstanceName Examples.good_name (mkInstanceOut "" "" "")
    = (true, mkInstanceOut "edge/e-1/abc123" "p1" "o1")
  /\ exists pool,
       pool <> "" /\ Spec.contains "/" pool = false
       /\ Examples.good_name
          = "organizations/" ++ "o1" ++ "/projects/" ++ "p1"
            ++ "/pools/" ++ pool ++ "/gamelets/" ++ "edge/e-1/abc123".
Proof.
  split; [reflexivity|].
  exact (ParseInstanceName_rebuild Examples.good_name (mkInstanceOut "" "" "")
           (mkInstanceOut "edge/e-1/abc123" "p1" "o1") eq_refl).
Defined.

Lemma ParseInstanceName_of_template_witness :
  ParseInstanceName
    ("organizations/" ++ "o1" ++ "/projects/" ++ "p1" ++ "/pools/" ++ "pool1"
     ++ "/gamelets/" ++ "edge" ++ "/" ++ "e-1" ++ "/" ++ "abc123")
    (mkInstanceOut "" "" "")
  = (true, mkInstanceOut ("edge" ++ "/" ++ "e-1" ++ "/" ++ "abc123") "p1" "o1").
Proof.
  apply (ParseInstanceName_of_template "o1" "p1" "pool1" "edge" "e-1" "abc123").
  intros s [<-|[<-|[<-|[<-|[<-|[<-|[]]]]]]];
    (split; [discriminate|reflexivity]).
Defined.

Lemma ParseInstanceName_ids_well_formed_witness :
  ParseInstanceName Examples.good_name (mkInstanceOut "" "" "")
    = (true, mkInstanceOut "edge/e-1/abc123" "p1" "o1")
  /\ exists a b c,
       Str.StrSplit "edge/e-1/abc123" "/" = [a; b; c]
       /\ a <> "" /\ b <> "" /\ c <> "".
Proof.
  split; [reflexivity|].
  exact (proj2 (proj2
           (ParseInstanceName_ids_well_formed Examples.good_name
              (mkInstanceOut "" "" "")
              (mkInstanceOut "edge/e-1/abc123" "p1" "o1") eq_refl))).
Defined.

Lemma ParseValue_value_is_clean_witness :
  ParseValue ("Host:   10.0.0.1  " ++ LF_string) "Host" "" = (true, "10.0.0.1")
  /\ Spec.contains Str.LF "10.0.0.1" = false.
Proof.
  split; [reflexivity|].
  exact (proj1 (ParseValue_value_is_clean
                  ("Host:   10.0.0.1  " ++ LF_string) "Host" "" "10.0.0.1"
                  eq_refl)).
Defined.

Lemma ParseValue_value_from_text_witness :
  ParseValue ("x" ++ LF_string ++ "Host:   10.0.0.1  ") "Host" ""
    = (true, "10.0.0.1")
  /\ exists front rest,
       "x" ++ LF_string ++ "Host:   10.0.0.1  "
       = front ++ ("Host" ++ ":") ++ rest
       /\ exists l r, rest = l ++ "10.0.0.1" ++ r /\ Spec.all_space l = true.
Proof.
  split; [reflexivity|].
  exact (ParseValue_value_from_text
           ("x" ++ LF_string ++ "Host:   10.0.0.1  ") "Host" "" "10.0.0.1"
           eq_refl).
Defined.

Lemma ParseValue_key_with_line_feed_witness :
  Spec.contains Str.LF ("Ho" ++ LF_string ++ "st") = true
  /\ ParseValue ("Ho" ++ LF_string ++ "st: 1") ("Ho" ++ LF_string ++ "st") "old"
     = (false, "old").
Proof.
  split; [reflexivity|].
  exact (ParseValue_key_with_line_feed
           ("Ho" ++ LF_string ++ "st: 1") ("Ho" ++ LF_string ++ "st") "old"
           eq_refl).
Defined.

Lemma Quoted_prefix_free_witness :
  Quoted "a" ++ " --project" = Quoted "a" ++ " --project"
  /\ "a" = "a" /\ " --project" = " --project".
Proof.
  split; [reflexivity|].
  exact (Quoted_prefix_free "a" "a" " --project" " --project" eq_refl).
Defined.

Lemma ssh_init_command_injective_witness :
  command (ssh_init_start_info "ggp" "edge/e-1/abc123" "p1" "")
  = command (ssh_init_start_info "ggp" "edge/e-1/abc123" "p1" "")
  /\ "edge/e-1/abc123" = "edge/e-1/abc123" /\ "p1" = "p1" /\ "" = "".
Proof.
  split; [reflexivity|].
  exact (ssh_init_command_injective "ggp" "edge/e-1/abc123" "p1" ""
           "edge/e-1/abc123" "p1" "" eq_refl).
Defined.

Lemma InitSsh_succeeds_exactly_when_witness :
  (forall msg, ok (Examples.MakeStatus msg) = false)
  /\ (forall inner msg,
        ok inner = false -> ok (Examples.WrapStatus inner msg) = false)
  /\ fst (demo_InitSsh
            (Examples.factory_of
               (Examples.printing_process (Examples.output_with_port "2222") 0))
            "edge/e-1/abc123" "p1" "o1" "" 0%Z)
     = (OkStatus, "1.2.3.4", 2222%Z).
Proof.
  split; [reflexivity|]. split; [intros inner msg H; exact H|].
  exact (proj2
           (InitSsh_succeeds_exactly_when nat Examples.MakeStatus
              Examples.WrapStatus Examples.ggp_path Examples.atoi_out_of_range
              (fun _ => eq_refl) (fun inner msg H => H)
              (Examples.factory_of
                 (Examples.printing_process
                    (Examples.output_with_port "2222") 0))
              "edge/e-1/abc123" "p1" "o1" "" 0%Z)
           "1.2.3.4" "2222" eq_refl eq_refl eq_refl).
Defined.

Lemma InitSsh_chunking_irrelevant_witness :
  String.concat ""
    ["Host: 1.2"; ".3.4" ++ LF_string ++ "Po"; "rt: 2222" ++ LF_string]
  = String.concat "" [Examples.output_with_port "2222"]
  /\ demo_InitSsh
       (Examples.factory_of
          (mkProcess OkStatus
             ["Host: 1.2"; ".3.4" ++ LF_string ++ "Po"; "rt: 2222" ++ LF_string]
             OkStatus 0))
       "edge/e-1/abc123" "p1" "o1" "" 0%Z
     = demo_InitSsh
         (Examples.factory_of
            (Examples.printing_process (Examples.output_with_port "2222") 0))
         "edge/e-1/abc123" "p1" "o1" "" 0%Z.
Proof.
  split; [reflexivity|].
  exact (InitSsh_chunking_irrelevant nat Examples.MakeStatus
           Examples.WrapStatus Examples.ggp_path Examples.atoi_out_of_range
           (Examples.factory_of
              (mkProcess OkStatus
                 ["Host: 1.2"; ".3.4" ++ LF_string ++ "Po";
                  "rt: 2222" ++ LF_string]
                 OkStatus 0))
           (Examples.factory_of
              (Examples.printing_process (Examples.output_with_port "2222") 0))
           "edge/e-1/abc123" "p1" "o1" "" 0%Z
           eq_refl eq_refl eq_refl eq_refl).
Defined.

Lemma InitSsh_host_missing_witness :
  Spec.lines ("Port: 22" ++ LF_string) = ["Port: 22"]
  /\ fst (demo_InitSsh
            (Examples.factory_of
               (Examples.printing_process ("Port: 22" ++ LF_string) 0))
            "edge/e-1/abc123" "p1" "o1" "" 0%Z)
     = (Examples.MakeStatus
          ("Failed to parse host from ggp ssh init response"
           ++ LF_string ++ "Port: 22" ++ LF_string),
        "", 0%Z).
Proof.
  split; [reflexivity|].
  refine (proj1
            (InitSsh_host_missing nat Examples.MakeStatus
               Examples.WrapStatus Examples.ggp_path Examples.atoi_out_of_range
               (fun _ => eq_refl)
               (Examples.factory_of
                  (Examples.printing_process ("Port: 22" ++ LF_string) 0))
               "edge/e-1/abc123" "p1" "o1" "" 0%Z
               eq_refl eq_refl eq_refl _)).
  intros l Hl. vm_compute in Hl. destruct Hl as [<-|[]].
  intros [r H]. discriminate H.
Defined.

Lemma StartSession_registry_pass_through_witness :
  ParseInstanceName Examples.good_name (mkInstanceOut "" "" "")
    = (true, mkInstanceOut "edge/e-1/abc123" "p1" "o1")
  /\ filter (is_registry_start nat)
       (snd (demo_StartSession
               (Examples.registry_returning (mkStatus kUnavailable "busy")
                  (Some (Examples.handle_tracking "other")))
               (Examples.factory_of
                  (Examples.printing_process
                     (Examples.output_with_port "2222") 0))
               (Examples.request_for Examples.good_name)))
     = [Call_SessionManagerStartSession nat "edge/e-1/abc123" "p1" "o1"
          "1.2.3.4" 2222%Z "C:\assets"]
  /\ fst (demo_StartSession
            (Examples.registry_returning (mkStatus kUnavailable "busy")
               (Some (Examples.handle_tracking "other")))
            (Examples.factory_of
               (Examples.printing_process (Examples.output_with_port "2222") 0))
            (Examples.request_for Examples.good_name))
     = mkStatus kUnavailable "busy".
Proof.
  split; [reflexivity|].
  destruct (StartSession_registry_pass_through nat 0%nat Status
              Examples.ToGrpcStatus Examples.MakeStatus Examples.WrapStatus
              Examples.ggp_path Examples.atoi_out_of_range
              (Examples.registry_returning (mkStatus kUnavailable "busy")
                 (Some (Examples.handle_tracking "other")))
              (Examples.factory_of
                 (Examples.printing_process (Examples.output_with_port "2222") 0))
              (Examples.request_for Examples.good_name)
              (mkInstanceOut "edge/e-1/abc123" "p1" "o1") eq_refl eq_refl)
    as (Hreg & Hret & _).
  split; [rewrite Hreg|rewrite Hret]; reflexivity.
Defined.

Lemma StartSession_command_has_all_ids_witness :
  ParseInstanceName Examples.good_name (mkInstanceOut "" "" "")
    = (true, mkInstanceOut "edge/e-1/abc123" "p1" "o1")
  /\ exists rest,
       snd (demo_StartSession
              (Examples.registry_returning OkStatus None)
              (Examples.factory_of
                 (Examples.printing_process
                    (Examples.output_with_port "2222") 0))
              (Examples.request_for Examples.good_name))
       = Call_ProcessCreate nat
           (mkStartInfo
              ("ggp" ++ " ssh init --instance " ++ Quoted "edge/e-1/abc123"
               ++ " --project " ++ Quoted "p1"
               ++ " --organization " ++ Quoted "o1")
              "ggp ssh init" true)
         :: Call_ProcessStart nat :: rest.
Proof.
  split; [reflexivity|].
  exact (StartSession_command_has_all_ids nat 0%nat Status
           Examples.ToGrpcStatus Examples.MakeStatus Examples.WrapStatus
           Examples.ggp_path Examples.atoi_out_of_range
           (Examples.registry_returning OkStatus None)
           (Examples.factory_of
              (Examples.printing_process (Examples.output_with_port "2222") 0))
           (Examples.request_for Examples.good_name)
           (mkInstanceOut "edge/e-1/abc123" "p1" "o1") eq_refl).
Defined.

Lemma StartSession_end_to_end_witness :
  Spec.extract (Examples.output_with_port "2222") "Port" = Some ("2222" ++ "")
  /\ (1 <= Spec.decimal "2222" <= 65535)%Z
  /\ filter (is_registry_start nat)
       (snd (demo_StartSession
               (Examples.registry_returning OkStatus None)
               (Examples.factory_of
                  (Examples.printing_process
                     (Examples.output_with_port "2222") 0))
               (Examples.request_for Examples.good_name)))
     = [Call_SessionManagerStartSession nat
          ("edge" ++ "/" ++ "e-1" ++ "/" ++ "abc123") "p1" "o1" "1.2.3.4"
          (Spec.decimal "2222") "C:\assets"].
Proof.
  split; [reflexivity|]. split; [vm_compute; split; discriminate|].
  refine (proj1
            (StartSession_end_to_end nat 0%nat Status
               Examples.ToGrpcStatus Examples.MakeStatus Examples.WrapStatus
               Examples.ggp_path Examples.atoi_out_of_range
               (Examples.registry_returning OkStatus None)
               (Examples.factory_of
                  (Examples.printing_process
                     (Examples.output_with_port "2222") 0))
               (Examples.request_for Examples.good_name)
               "o1" "p1" "pool1" "edge" "e-1" "abc123" "1.2.3.4" "2222" ""
               _ eq_refl eq_refl eq_refl eq_refl eq_refl eq_refl
               _ eq_refl eq_refl _)).
  - intros s [<-|[<-|[<-|[<-|[<-|[<-|[]]]]]]];
      (split; [discriminate|reflexivity]).
  - discriminate.
  - vm_compute. split; discriminate.
Defined.

Lemma StartSession_malformed_name_witness :
  fst (ParseInstanceName Examples.short_name (mkInstanceOut "" "" "")) = false
  /\ snd (demo_StartSession
            (Examples.registry_returning OkStatus
               (Some (Examples.handle_tracking "edge/e-1/abc123")))
            (Examples.factory_of
               (Examples.printing_process (Examples.output_with_port "2222") 0))
            (Examples.request_for Examples.short_name))
     = [Call_RecordEvent nat
          (mkEvent nat "" "" kInvalidArgument 0%nat kCli None) kSessionStart].
Proof.
  split; [reflexivity|].
  exact (proj1
           (StartSession_malformed_name nat 0%nat Status
              Examples.ToGrpcStatus Examples.MakeStatus Examples.WrapStatus
              Examples.ggp_path Examples.atoi_out_of_range
              (Examples.registry_returning OkStatus
                 (Some (Examples.handle_tracking "edge/e-1/abc123")))
              (Examples.factory_of
                 (Examples.printing_process
                    (Examples.output_with_port "2222") 0))
              (Examples.request_for Examples.short_name) eq_refl)).
Defined.

Lemma StartSession_resolver_failure_witness :
  ok (InitSsh_status nat Examples.MakeStatus Examples.WrapStatus
        Examples.ggp_path Examples.atoi_out_of_range
        (Examples.factory_of
           (Examples.printing_process (Examples.output_with_port "2222") 3))
        "edge/e-1/abc123" "p1" "o1" "" 0%Z) = false
  /\ fst (demo_StartSession
            (Examples.registry_returning OkStatus
               (Some (Examples.handle_tracking "edge/e-1/abc123")))
            (Examples.factory_of
               (Examples.printing_process (Examples.output_with_port "2222") 3))
            (Examples.request_for Examples.good_name))
     = Examples.MakeStatus "ggp process exited with code 3".
Proof.
  split; [reflexivity|].
  destruct (StartSession_resolver_failure nat 0%nat Status
              Examples.ToGrpcStatus Examples.MakeStatus Examples.WrapStatus
              Examples.ggp_path Examples.atoi_out_of_range
              (Examples.registry_returning OkStatus
                 (Some (Examples.handle_tracking "edge/e-1/abc123")))
              (Examples.factory_of
                 (Examples.printing_process
                    (Examples.output_with_port "2222") 3))
              (Examples.request_for Examples.good_name)
              (mkInstanceOut "edge/e-1/abc123" "p1" "o1") eq_refl eq_refl)
    as [_ Hret].
  rewrite Hret. reflexivity.
Defined.
